(** * Time tracking system: work-hour calculator, break overlap detector,
      session merger and the break-recording endpoint.

    The development embeds the Python sources

      - [app/database/models.py]         ([BreakType], [BreakEntry], [TimeEntry]),
      - [app/services/time_calculator.py] ([TimeCalculator]),
      - [app/services/session_manager.py] ([SessionManager]),
      - [app/routers/tracking.py]         ([record_break])

    as executable Rocq functions.

    Modelling conventions.
      - A naive [datetime] is the record of its fields; the calendar date is
        kept as its proleptic ordinal ([date.toordinal()]), the time of day as
        hour, minute, second and microsecond.  A [timedelta] is its length in
        microseconds, an integer.
      - Python floats are idealised as exact rationals ([Q]); numeric equality
        of hours is [Qeq].  Integers ([duration_minutes]) are [Z].
      - Exceptions are values of [Exn]; a function that may raise returns a
        [Result].
      - The Mongo collection is a finite map from the natural key
        (employee, day) to the stored [TimeEntry]; the store round trip is the
        identity on the fields modelled here.  The generated [_id] and
        [created_at] fields take no part in any computation and are left out.
      - The timezone resolver, the zone conversions of [pytz] and the clock
        are collaborators, gathered in the class [Collaborators]. *)

From Stdlib Require Import QArith Qabs Lqa DecimalString.
From stdpp Require Import gmap strings list fin_maps.
From Stdlib Require DecimalPos DecimalZ.

Local Open Scope Z_scope.

(** ** Python values *)

Module Py.

(** [datetime]: date as ordinal day, then the time-of-day fields. *)
Record datetime := mk_datetime {
  ordinal : Z;
  hour : Z;
  minute : Z;
  second : Z;
  microsecond : Z
}.

(** The ranges the [datetime] constructor enforces on the time fields. *)
Definition datetime_ok (d : datetime) : Prop :=
  0 <= hour d < 24 /\ 0 <= minute d < 60 /\ 0 <= second d < 60 /\
  0 <= microsecond d < 1000000.

(** Microseconds since the start of ordinal day 0. *)
Definition to_micro (d : datetime) : Z :=
  (((ordinal d * 24 + hour d) * 60 + minute d) * 60 + second d) * 1000000
  + microsecond d.

(** [a - b], a [timedelta], in microseconds. *)
Definition sub (a b : datetime) : Z := to_micro a - to_micro b.

(** [a <= b] and [a < b] on datetimes. *)
Definition le (a b : datetime) : Prop := to_micro a <= to_micro b.
Definition lt (a b : datetime) : Prop := to_micro a < to_micro b.
Definition leb (a b : datetime) : bool := to_micro a <=? to_micro b.

(** [max(a, b)]: Python returns the first argument unless the second is
    strictly greater; [min(a, b)]: the first unless the second is strictly
    smaller. *)
Definition max (a b : datetime) : datetime :=
  if to_micro a <? to_micro b then b else a.
Definition min (a b : datetime) : datetime :=
  if to_micro b <? to_micro a then b else a.

(** [d.replace(hour=h, minute=m, second=s)]: the date and the microsecond
    field are kept. *)
Definition replace_hms (d : datetime) (h m s : Z) : datetime :=
  {| ordinal := ordinal d; hour := h; minute := m; second := s;
     microsecond := microsecond d |}.

(** [timedelta.total_seconds()]. *)
Definition total_seconds (td : Z) : Q := td # 1000000.

(** [int(x)] on a float: truncation toward zero. *)
Definition int (x : Q) : Z := Z.quot (Qnum x) (Z.pos (Qden x)).

(** [round(x)] on a float: nearest integer, ties to the even one. *)
Definition round (x : Q) : Z :=
  let f := Qnum x / Z.pos (Qden x) in
  let r := 2 * (Qnum x - f * Z.pos (Qden x)) in
  if r <? Z.pos (Qden x) then f
  else if Z.pos (Qden x) <? r then f + 1
  else if Z.even f then f else f + 1.

Definition Qltb (x y : Q) : bool := negb (Qle_bool y x).

(** [max(a, b)] and [min(a, b)] on numbers, with Python's choice of
    argument. *)
Definition qmax (a b : Q) : Q := if Qltb a b then b else a.
Definition qmin (a b : Q) : Q := if Qltb b a then b else a.

(** Decimal text of an integer, as [str(n)]. *)
Definition str_Z (n : Z) : string := NilZero.string_of_int (Z.to_int n).

(** [f"{x:.0f}"]: the rounded value, with the sign of [x] kept when the
    rounding is zero. *)
Definition format_0f (x : Q) : string :=
  let r := round x in
  if (r =? 0) && Qltb x 0 then "-0" else str_Z r.

(** ["sep".join(l)]. *)
Fixpoint join (sep : string) (l : list string) : string :=
  match l with
  | [] => ""
  | [s] => s
  | s :: rest => s +:+ sep +:+ join sep rest
  end.

(** [enumerate(l)], starting at [n]. *)
Fixpoint enumerate_from {A} (n : nat) (l : list A) : list (nat * A) :=
  match l with
  | [] => []
  | x :: rest => (n, x) :: enumerate_from (S n) rest
  end.
Definition enumerate {A} (l : list A) : list (nat * A) := enumerate_from 0 l.

(** Exceptions raised by the modelled code. *)
Inductive Exn :=
| ValidationError (msg : string)
| HTTPException (status_code : Z) (detail : string).

Definition Result (A : Type) : Type := Exn + A.

End Py.

#[global] Instance datetime_eq_dec : EqDecision Py.datetime.
Proof. solve_decision. Defined.

(** ** app/database/models.py *)

Inductive BreakType := BREAK1 | BREAK2 | BIO.

#[global] Instance BreakType_eq_dec : EqDecision BreakType.
Proof. solve_decision. Defined.

(** The enum member's [.value]; for this [str]-mixin enum it is also the text
    an f-string prints for the member (interpreters from 3.11 on print the
    qualified member name instead; no property below depends on the text). *)
Definition BreakType_value (t : BreakType) : string :=
  match t with
  | BREAK1 => "break1"
  | BREAK2 => "break2"
  | BIO => "bio"
  end.

Record BreakEntry := mk_BreakEntry {
  break_type : BreakType;
  start_time : option Py.datetime;
  end_time : option Py.datetime;
  duration_minutes : option Z;
  be_timezone : option string
}.

#[global] Instance BreakEntry_eq_dec : EqDecision BreakEntry.
Proof. solve_decision. Defined.

(** [BreakEntry.validate_end_time]: [values] holds the already validated
    [start_time]. *)
Definition validate_end_time (v : option Py.datetime)
    (values_start_time : option Py.datetime) : Py.Result (option Py.datetime) :=
  match v, values_start_time with
  | Some e, Some s =>
      if Py.leb e s then inl (Py.ValidationError "End time must be after start time")
      else inr v
  | _, _ => inr v
  end.

(** [BreakEntry.calculate_duration]: the arguments are the fields of [values]
    (both validated by the time the validator runs). *)
Definition calculate_duration (v : option Z)
    (values_start_time values_end_time : option Py.datetime) : option Z :=
  match v with
  | Some d => Some d
  | None =>
      match values_start_time, values_end_time with
      | Some start, Some end_ =>
          Some (Py.int (Py.total_seconds (Py.sub end_ start) / 60))
      | _, _ => v
      end
  end.

(** [BreakEntry(break_type=..., start_time=..., end_time=...,
    duration_minutes=..., timezone=...)]: the validators run in field order;
    a failed [end_time] fails the construction. *)
Definition BreakEntry_new (bt : BreakType) (start end_ : option Py.datetime)
    (duration : option Z) (tz : option string) : Py.Result BreakEntry :=
  match validate_end_time end_ start with
  | inl e => inl e
  | inr end_ok =>
      inr {| break_type := bt;
             start_time := start;
             end_time := end_ok;
             duration_minutes := calculate_duration duration start end_ok;
             be_timezone := tz |}
  end.

(** The invariant every constructed [BreakEntry] satisfies. *)
Definition BreakEntry_ok (b : BreakEntry) : Prop :=
  match start_time b, end_time b with
  | Some s, Some e => Py.lt s e
  | _, _ => True
  end.

(** Location metadata returned by the timezone resolver (a dict of text
    fields). *)
Definition Location : Type := list (string * string).

Record TimeEntry := mk_TimeEntry {
  emp_id : string;
  date : Py.datetime;
  login_time : option Py.datetime;
  logout_time : option Py.datetime;
  breaks : list BreakEntry;
  total_work_hours : option Q;
  scenario : option string;
  timezone : string;
  ip_address : option string;
  location : option Location
}.

(** ** app/services/time_calculator.py *)

Module TimeCalculator.

Definition STANDARD_WORK_HOURS : Z := 9.
Definition MANDATORY_BREAK_MINUTES : Z := 30.
Definition MAX_BIO_BREAK_MINUTES : Z := 30.
Definition DEFAULT_LOGOUT_HOUR : Z := 18.

(** *** [check_overlapping_breaks] *)

(** An element of the list [timed]: the position in [breaks], the entry,
    and its two timestamps (both present). *)
Record Timed := mk_Timed {
  t_idx : nat;
  t_br : BreakEntry;
  t_start : Py.datetime;
  t_end : Py.datetime
}.

(** [timed = [(i, b) for i, b in enumerate(breaks)
              if b.start_time and b.end_time]] *)
Definition timed_of (p : nat * BreakEntry) : option Timed :=
  match start_time p.2, end_time p.2 with
  | Some s, Some e => Some (mk_Timed p.1 p.2 s e)
  | _, _ => None
  end.
Definition timed (breaks : list BreakEntry) : list Timed :=
  omap timed_of (Py.enumerate breaks).

(** The test that makes the inner loop [continue]. *)
Definition disjoint (t1 t2 : Timed) : bool :=
  Py.leb (t_end t1) (t_start t2) || Py.leb (t_end t2) (t_start t1).

(** What the loop body computes for a pair it does not skip. *)
Record Overlap := mk_Overlap {
  ov_idx1 : nat;
  ov_type1 : BreakType;
  ov_idx2 : nat;
  ov_type2 : BreakType;
  ov_min : Q
}.

Definition overlap_of (t1 t2 : Timed) : Overlap :=
  let ov_start := Py.max (t_start t1) (t_start t2) in
  let ov_end := Py.min (t_end t1) (t_end t2) in
  {| ov_idx1 := t_idx t1;
     ov_type1 := break_type (t_br t1);
     ov_idx2 := t_idx t2;
     ov_type2 := break_type (t_br t2);
     ov_min := Py.total_seconds (Py.sub ov_end ov_start) / 60 |}.

(** The appended text:
    [f"{br1.break_type}({idx1+1}) overlaps {br2.break_type}({idx2+1}) for {ov_min:.0f} min"] *)
Definition overlap_message (o : Overlap) : string :=
  BreakType_value (ov_type1 o) +:+ "(" +:+ Py.str_Z (Z.of_nat (ov_idx1 o) + 1)
  +:+ ") overlaps " +:+
  BreakType_value (ov_type2 o) +:+ "(" +:+ Py.str_Z (Z.of_nat (ov_idx2 o) + 1)
  +:+ ") for " +:+ Py.format_0f (ov_min o) +:+ " min".

(** Inner loop: [for idx2, br2 in timed[i + 1 :]]. *)
Definition inner_loop (t1 : Timed) (later : list Timed) : list Overlap :=
  omap (fun t2 => if disjoint t1 t2 then None else Some (overlap_of t1 t2))
       later.

(** Outer loop: [for i, (idx1, br1) in enumerate(timed)]. *)
Fixpoint outer_loop (ts : list Timed) : list Overlap :=
  match ts with
  | [] => []
  | t1 :: later => inner_loop t1 later ++ outer_loop later
  end.

Definition overlaps (breaks : list BreakEntry) : list Overlap :=
  outer_loop (timed breaks).

Definition check_overlapping_breaks (breaks : list BreakEntry)
    : bool * option string :=
  match map overlap_message (overlaps breaks) with
  | [] => (false, None)
  | overlapping => (true, Some (Py.join "; " overlapping))
  end.

(** *** [handle_overlapping_breaks] *)

Record OverlapHandling := mk_OverlapHandling {
  has_overlaps : bool;
  overlap_details : option string;
  adjustments_made : list string
}.

Definition handle_overlapping_breaks (breaks : list BreakEntry)
    : list BreakEntry * OverlapHandling :=
  let '(has, msg) := check_overlapping_breaks breaks in
  (breaks, {| has_overlaps := has; overlap_details := msg;
              adjustments_made := [] |}).

(** *** [calculate_work_hours] *)

(** The [details] dict of a computed session. *)
Record CalcDetails := mk_CalcDetails {
  d_total_logged_hours : Q;
  d_is_full_workday : bool;
  d_login_time : Py.datetime;
  d_logout_time : Py.datetime;
  d_mandatory_breaks : gmap string Z;
  d_bio_breaks : gmap string Z;
  d_adjustments : gmap string Z;
  d_overlap_handling : OverlapHandling;
  d_total_break_minutes : Z;
  d_final_work_hours : Q
}.

(** The second component of the result: [{"error": ...}] when there is no
    login, the full dict otherwise. *)
Inductive Details :=
| ErrorDetails (error : string)
| Computed (d : CalcDetails).

(** The variables the loop over the breaks updates. *)
Record Acc := mk_Acc {
  total_break_min : Z;
  b1_min : Z;
  b2_min : Z;
  bio_min : Z;
  mandatory_breaks : gmap string Z;
  bio_breaks : gmap string Z
}.

Definition acc0 : Acc :=
  {| total_break_min := 0; b1_min := 0; b2_min := 0; bio_min := 0;
     mandatory_breaks := ∅; bio_breaks := ∅ |}.

(** One iteration of [for br in breaks]. *)
Definition acc_step (a : Acc) (br : BreakEntry) : Acc :=
  let dur := default 0 (duration_minutes br) in
  let total := total_break_min a + dur in
  match break_type br with
  | BREAK1 =>
      {| total_break_min := total; b1_min := dur; b2_min := b2_min a;
         bio_min := bio_min a;
         mandatory_breaks := <["break1" := dur]> (mandatory_breaks a);
         bio_breaks := bio_breaks a |}
  | BREAK2 =>
      {| total_break_min := total; b1_min := b1_min a; b2_min := dur;
         bio_min := bio_min a;
         mandatory_breaks := <["break2" := dur]> (mandatory_breaks a);
         bio_breaks := bio_breaks a |}
  | BIO =>
      {| total_break_min := total; b1_min := b1_min a; b2_min := b2_min a;
         bio_min := bio_min a + dur;
         mandatory_breaks := mandatory_breaks a;
         bio_breaks :=
           <["bio_break_" +:+ Py.str_Z (Z.of_nat (size (bio_breaks a)) + 1)
             := dur]> (bio_breaks a) |}
  end.

Definition accumulate (breaks : list BreakEntry) : Acc :=
  foldl acc_step acc0 breaks.

(** The local function [_adj] of the full-day branch; the dict it writes to
    is passed and returned. *)
Definition _adj (actual : Z) (label : string) (adjustments : gmap string Z)
    : Z * gmap string Z :=
  if MANDATORY_BREAK_MINUTES <? actual then
    let excess := actual - MANDATORY_BREAK_MINUTES in
    (- excess, <[label +:+ "_excess" := - excess]> adjustments)
  else if (0 <? actual) && (actual <? MANDATORY_BREAK_MINUTES) then
    let unused := MANDATORY_BREAK_MINUTES - actual in
    (unused, <[label +:+ "_unused" := unused]> adjustments)
  else (0, adjustments).

(** The branch results: [final_hours], [penalty_min] and the
    [adjustments] dict. *)
Definition full_day (a : Acc) : Q * Z * gmap string Z :=
  let base_hours := STANDARD_WORK_HOURS in
  let penalty_min := 0 in
  let bonus_min := 0 in
  let '(r1, adj1) := _adj (b1_min a) "break1" ∅ in
  let bonus_min := bonus_min + r1 in
  let '(r2, adj2) := _adj (b2_min a) "break2" adj1 in
  let bonus_min := bonus_min + r2 in
  let '(penalty_min, adj3) :=
    if MAX_BIO_BREAK_MINUTES <? bio_min a then
      let excess := bio_min a - MAX_BIO_BREAK_MINUTES in
      (penalty_min + excess, <["bio_excess" := - excess]> adj2)
    else (penalty_min, adj2) in
  let final_hours :=
    Py.qmax 0 (Py.qmin (inject_Z base_hours)
                 (inject_Z base_hours - inject_Z penalty_min / 60
                  + inject_Z bonus_min / 60)) in
  (final_hours, penalty_min, adj3).

Definition partial_day (total_logged_hours : Q) (a : Acc)
    : Q * Z * gmap string Z :=
  let productive := (total_logged_hours - inject_Z (total_break_min a) / 60)%Q in
  let penalty_min := 0 in
  let '(penalty_min, adj1) :=
    if MANDATORY_BREAK_MINUTES <? b1_min a then
      let extra := b1_min a - MANDATORY_BREAK_MINUTES in
      (penalty_min + extra, <["break1_excess_penalty" := - extra]> ∅)
    else (penalty_min, ∅) in
  let '(penalty_min, adj2) :=
    if MANDATORY_BREAK_MINUTES <? b2_min a then
      let extra := b2_min a - MANDATORY_BREAK_MINUTES in
      (penalty_min + extra, <["break2_excess_penalty" := - extra]> adj1)
    else (penalty_min, adj1) in
  let '(penalty_min, adj3) :=
    if MAX_BIO_BREAK_MINUTES <? bio_min a then
      let extra := bio_min a - MAX_BIO_BREAK_MINUTES in
      (penalty_min + extra, <["bio_excess_penalty" := - extra]> adj2)
    else (penalty_min, adj2) in
  let final_hours := Py.qmax 0 (productive - inject_Z penalty_min / 60) in
  (final_hours, penalty_min, adj3).

(** [time_entry.logout_time or time_entry.login_time.replace(hour=18,
    minute=0, second=0)] *)
Definition effective_logout (logout : option Py.datetime) (login : Py.datetime)
    : Py.datetime :=
  match logout with
  | Some t => t
  | None => Py.replace_hms login DEFAULT_LOGOUT_HOUR 0 0
  end.

(** [(logout_time - login_time).total_seconds() / 3600] *)
Definition logged_hours (logout login : Py.datetime) : Q :=
  Py.total_seconds (Py.sub logout login) / 3600.

(** [abs(total_logged_hours - STANDARD_WORK_HOURS) < 0.5] *)
Definition full_day_test (total_logged_hours : Q) : bool :=
  Py.Qltb (Qabs (total_logged_hours - inject_Z STANDARD_WORK_HOURS)) (1 # 2).

Definition calculate_work_hours (time_entry : TimeEntry)
    : Q * Details * string :=
  match login_time time_entry with
  | None => (0%Q, ErrorDetails "No login time recorded", "Absent")
  | Some login =>
      let logout := effective_logout (logout_time time_entry) login in
      let scenario :=
        match logout_time time_entry with
        | Some _ => "Calculation"
        | None => "Emp forgot to logout"
        end in
      let total_logged_hours := logged_hours logout login in
      let is_full_day := full_day_test total_logged_hours in
      let '(breaks, ov) := handle_overlapping_breaks (breaks time_entry) in
      let a := accumulate breaks in
      let '(final_hours, penalty_min, adjustments) :=
        if is_full_day then full_day a
        else partial_day total_logged_hours a in
      let scenario :=
        if bool_decide (penalty_min ≠ 0) then "Emp exceeds break"
        else scenario in
      let scenario :=
        if has_overlaps ov then scenario +:+ " with overlapping breaks"
        else scenario in
      (final_hours,
       Computed
         {| d_total_logged_hours := total_logged_hours;
            d_is_full_workday := is_full_day;
            d_login_time := login;
            d_logout_time := logout;
            d_mandatory_breaks := mandatory_breaks a;
            d_bio_breaks := bio_breaks a;
            d_adjustments := adjustments;
            d_overlap_handling := ov;
            d_total_break_minutes := total_break_min a;
            d_final_work_hours := final_hours |},
       scenario)
  end.

End TimeCalculator.

(** ** Collaborators

    The services the merger and the endpoint call: the client-address and
    timezone resolver ([geo_timezone_service]), the zone conversions of
    [tracking.py] (built on [pytz]) and the clock ([datetime.now().date()],
    as an ordinal day). *)

Class Collaborators := {
  Request : Type;
  get_client_ip : Request -> string;
  get_timezone_from_ip : string -> string * option Location;
  _to_utc_naive : Py.datetime -> string -> Py.datetime;
  _to_user_zone : Py.datetime -> string -> Py.datetime;
  current_date : Z
}.

(** ** app/database/repository.py *)

(** The [time_entries] collection, by natural key (employee, ordinal day). *)
Abbreviation Store := (gmap (string * Z) TimeEntry).

Module TimeEntryRepository.

Definition get_time_entry (db : Store) (emp : string) (entry_date : Z)
    : option TimeEntry :=
  db !! (emp, entry_date).

(** [insert_one] of the entry's dict. *)
Definition create_time_entry (db : Store) (time_entry : TimeEntry)
    : Store * TimeEntry :=
  (<[(emp_id time_entry, Py.ordinal (date time_entry)) := time_entry]> db,
   time_entry).

(** [find_one_and_update] with [$set]: the matched document takes the
    fields of [update_data] and is returned; no document, no change. *)
Definition update_time_entry (db : Store) (emp : string) (entry_date : Z)
    (update_data : TimeEntry) : Store * option TimeEntry :=
  match db !! (emp, entry_date) with
  | Some _ => (<[(emp, entry_date) := update_data]> db, Some update_data)
  | None => (db, None)
  end.

End TimeEntryRepository.

(** ** app/services/session_manager.py *)

Module SessionManager.

(** The keyword arguments the callers pass to [create_or_update_session]. *)
Inductive KwArg :=
| kw_login_time (value : Py.datetime)
| kw_logout_time (value : Py.datetime)
| kw_breaks (value : list BreakEntry).

(** The body of [for new_break in value]: a bio break is appended; for the
    other kinds the scan replaces the first entry of the same type and
    stops, and the break is appended when the scan finds none. *)
Definition merge_break (session_breaks : list BreakEntry)
    (new_break : BreakEntry) : list BreakEntry :=
  if String.eqb (BreakType_value (break_type new_break)) "bio" then
    session_breaks ++ [new_break]
  else
    match list_find (fun existing_break =>
                       break_type existing_break = break_type new_break)
                    session_breaks with
    | Some (i, _) => <[i := new_break]> session_breaks
    | None => session_breaks ++ [new_break]
    end.

Definition set_breaks (s : TimeEntry) (bs : list BreakEntry) : TimeEntry :=
  {| emp_id := emp_id s; date := date s; login_time := login_time s;
     logout_time := logout_time s; breaks := bs;
     total_work_hours := total_work_hours s; scenario := scenario s;
     timezone := timezone s; ip_address := ip_address s;
     location := location s |}.

Definition set_login_time (s : TimeEntry) (v : option Py.datetime) : TimeEntry :=
  {| emp_id := emp_id s; date := date s; login_time := v;
     logout_time := logout_time s; breaks := breaks s;
     total_work_hours := total_work_hours s; scenario := scenario s;
     timezone := timezone s; ip_address := ip_address s;
     location := location s |}.

Definition set_logout_time (s : TimeEntry) (v : option Py.datetime) : TimeEntry :=
  {| emp_id := emp_id s; date := date s; login_time := login_time s;
     logout_time := v; breaks := breaks s;
     total_work_hours := total_work_hours s; scenario := scenario s;
     timezone := timezone s; ip_address := ip_address s;
     location := location s |}.

(** One iteration of [for key, value in kwargs.items()]: a non-empty
    [breaks] value is merged break by break, anything else is assigned with
    [setattr]. *)
Definition apply_kwarg (existing_session : TimeEntry) (kw : KwArg) : TimeEntry :=
  match kw with
  | kw_breaks ((_ :: _) as value) =>
      set_breaks existing_session
        (foldl merge_break (breaks existing_session) value)
  | kw_breaks [] => set_breaks existing_session []
  | kw_login_time v => set_login_time existing_session (Some v)
  | kw_logout_time v => set_logout_time existing_session (Some v)
  end.

(** The refresh of the timezone, location and address fields. *)
Definition refresh (s : TimeEntry) (timezone_str : string)
    (location_info : option Location) (ip : option string) : TimeEntry :=
  {| emp_id := emp_id s; date := date s; login_time := login_time s;
     logout_time := logout_time s; breaks := breaks s;
     total_work_hours := total_work_hours s; scenario := scenario s;
     timezone := timezone_str;
     ip_address :=
       match ip with
       | Some a => if String.eqb a "" then ip_address s else ip
       | None => ip_address s
       end;
     location :=
       match location_info with
       | Some (_ :: _) => location_info
       | _ => location s
       end |}.

Section WithCollaborators.
Context `{Collaborators}.

Definition get_current_session (db : Store) (emp : string)
    : option TimeEntry :=
  TimeEntryRepository.get_time_entry db emp current_date.

(** The resolved (timezone, location, address) of a call. *)
Definition resolve (request : option Request)
    : string * option Location * option string :=
  match request with
  | Some r =>
      let ip := get_client_ip r in
      let '(timezone_str, location_info) := get_timezone_from_ip ip in
      (timezone_str, location_info, Some ip)
  | None => ("UTC", None, None)
  end.

Definition create_or_update_session (db : Store) (emp : string)
    (request : option Request) (kwargs : list KwArg)
    : Store * option TimeEntry :=
  let '(timezone_str, location_info, ip) := resolve request in
  match TimeEntryRepository.get_time_entry db emp current_date with
  | Some existing_session =>
      let updated := foldl apply_kwarg existing_session kwargs in
      let update_data := refresh updated timezone_str location_info ip in
      TimeEntryRepository.update_time_entry db emp current_date update_data
  | None =>
      let session_data :=
        {| emp_id := emp;
           date := Py.mk_datetime current_date 0 0 0 0;
           login_time := None; logout_time := None; breaks := [];
           total_work_hours := None; scenario := None;
           timezone := timezone_str; ip_address := ip;
           location := location_info |} in
      let new_session :=
        foldl (fun s kw =>
                 match kw with
                 | kw_login_time v => set_login_time s (Some v)
                 | kw_logout_time v => set_logout_time s (Some v)
                 | kw_breaks v => set_breaks s v
                 end) session_data kwargs in
      let '(db', created) :=
        TimeEntryRepository.create_time_entry db new_session in
      (db', Some created)
  end.

End WithCollaborators.

End SessionManager.

(** ** app/routers/tracking.py *)

Module Tracking.

Record BreakRequest := mk_BreakRequest {
  rq_emp_id : string;
  rq_break_type : BreakType;
  rq_start_time : option Py.datetime;
  rq_end_time : option Py.datetime;
  rq_duration_minutes : option Z
}.

(** The two dicts [record_break] returns. *)
Inductive BreakResponse :=
| OverlapWarning (message : string) (warning : option string)
    (overlap_detected : bool)
| BreakRecorded (message : string) (bt : BreakType)
    (duration : option Z) (start_ end_ : option Py.datetime) (tz : string).

Section WithCollaborators.
Context `{Collaborators}.

(** [user_tz = session.timezone or "UTC"] *)
Definition user_tz (session : TimeEntry) : string :=
  if String.eqb (timezone session) "" then "UTC" else timezone session.

(** The normalised timestamps [start_utc] and [end_utc]. *)
Definition start_utc (request : BreakRequest) (tz : string)
    : option Py.datetime :=
  (fun t => _to_utc_naive t tz) <$> rq_start_time request.
Definition end_utc (request : BreakRequest) (tz : string)
    : option Py.datetime :=
  (fun t => _to_utc_naive t tz) <$> rq_end_time request.

(** The "auto duration" step. *)
Definition auto_duration (request : BreakRequest) (tz : string)
    : option Z :=
  match start_utc request tz, end_utc request tz,
        rq_duration_minutes request with
  | Some s, Some e, None =>
      Some (Py.int (Py.total_seconds (Py.sub e s) / 60))
  | _, _, d => d
  end.

(** [break_entry = BreakEntry(...)] of [record_break]. *)
Definition make_break_entry (request : BreakRequest) (tz : string)
    : Py.Result BreakEntry :=
  BreakEntry_new (rq_break_type request) (start_utc request tz)
    (end_utc request tz) (auto_duration request tz) (Some tz).

(** The test of "one mandatory break of each type per day". *)
Definition already_recorded (break_entry : BreakEntry)
    (session : TimeEntry) : bool :=
  negb (String.eqb (BreakType_value (break_type break_entry)) "bio")
  && bool_decide (break_type break_entry ∈ map break_type (breaks session)).

Definition record_break (db : Store) (request : BreakRequest)
    (req : Request) : Store * Py.Result BreakResponse :=
  match SessionManager.get_current_session db (rq_emp_id request) with
  | None => (db, inl (Py.HTTPException 404 "No active session found"))
  | Some session =>
      let tz := user_tz session in
      match make_break_entry request tz with
      | inl e => (db, inl e)
      | inr break_entry =>
          if already_recorded break_entry session then
            (db, inl (Py.HTTPException 400
                        (BreakType_value (break_type break_entry)
                         +:+ " already recorded for today")))
          else
            let test_breaks := breaks session ++ [break_entry] in
            let '(has_overlap, details) :=
              TimeCalculator.check_overlapping_breaks test_breaks in
            if has_overlap then
              (db, inr (OverlapWarning "Break recorded with overlap warning"
                          details true))
            else
              let '(db', _) :=
                SessionManager.create_or_update_session db
                  (rq_emp_id request) (Some req)
                  [SessionManager.kw_breaks [break_entry]] in
              (db', inr (BreakRecorded "Break recorded successfully"
                           (rq_break_type request)
                           (auto_duration request tz)
                           ((fun t => _to_user_zone t tz)
                              <$> start_utc request tz)
                           ((fun t => _to_user_zone t tz)
                              <$> end_utc request tz)
                           tz))
      end
  end.

End WithCollaborators.

End Tracking.

(** ** Sample data

    Sessions and requests used to run the definitions on concrete inputs.
    The day 2025-08-23 has ordinal 739486. *)

Module Examples.

Definition at_ (day h m s : Z) : Py.datetime := Py.mk_datetime day h m s 0.

Definition duration_only (bt : BreakType) (minutes : Z) : BreakEntry :=
  mk_BreakEntry bt None None (Some minutes) (Some "UTC").

Definition session (emp : string) (login logout : option Py.datetime)
    (bs : list BreakEntry) : TimeEntry :=
  {| emp_id := emp; date := at_ 739486 0 0 0;
     login_time := login; logout_time := logout; breaks := bs;
     total_work_hours := None; scenario := None; timezone := "UTC";
     ip_address := None; location := None |}.

(** The seed session "Full-day, exceeds break time" of [main.py]. *)
Definition emp239 : TimeEntry :=
  session "Emp239" (Some (at_ 739486 9 0 0)) (Some (at_ 739486 18 0 0))
    [duration_only BREAK1 35; duration_only BREAK2 40; duration_only BIO 30].

(** The seed session "Forgot to login" of [main.py], with breaks added. *)
Definition emp567 : TimeEntry :=
  session "Emp567" None (Some (at_ 739486 18 0 0))
    [duration_only BREAK1 45; duration_only BIO 50].

(** A login at 19:00 with no logout and ordinary breaks. *)
Definition late_login : TimeEntry :=
  session "Emp700" (Some (at_ 739486 19 0 0)) None
    [duration_only BREAK1 45; duration_only BIO 10].

(** A login at 19:00 with no logout and a bio break of -120 minutes. *)
Definition late_login_negative : TimeEntry :=
  session "Emp701" (Some (at_ 739486 19 0 0)) None [duration_only BIO (-120)].

Definition timed_break (bt : BreakType) (s e : Py.datetime) (minutes : Z)
    : BreakEntry :=
  mk_BreakEntry bt (Some s) (Some e) (Some minutes) (Some "UTC").

(** Collaborators that resolve every address to UTC. *)
Definition collaborators : Collaborators :=
  {| Request := unit;
     get_client_ip := fun _ => "203.192.1.1";
     get_timezone_from_ip := fun _ => ("UTC", None);
     _to_utc_naive := fun t _ => t;
     _to_user_zone := fun t _ => t;
     current_date := 739486 |}.

(** A session with a bio break from 10:00 to 10:30 and a Break1 of 30
    minutes, and the store that holds it. *)
Definition emp800 : TimeEntry :=
  session "Emp800" (Some (at_ 739486 9 0 0)) None
    [timed_break BIO (at_ 739486 10 0 0) (at_ 739486 10 30 0) 30;
     duration_only BREAK1 30].

Definition db800 : Store := {[ ("Emp800", 739486) := emp800 ]}.

(** The breaks of [emp800] followed by a bio break from 10:15 to 10:45. *)
Definition overlapping_breaks : list BreakEntry :=
  breaks emp800
  ++ [timed_break BIO (at_ 739486 10 15 0) (at_ 739486 10 45 0) 30].

(** Requests: a bio break 10:15-10:45 (overlapping the recorded one), a bio
    break 11:00-11:10, a second Break1 of 20 minutes, and a second Break1
    whose end is before its start. *)
Definition bio_overlapping : Tracking.BreakRequest :=
  Tracking.mk_BreakRequest "Emp800" BIO
    (Some (at_ 739486 10 15 0)) (Some (at_ 739486 10 45 0)) None.

Definition bio_later : Tracking.BreakRequest :=
  Tracking.mk_BreakRequest "Emp800" BIO
    (Some (at_ 739486 11 0 0)) (Some (at_ 739486 11 10 0)) None.

Definition break1_again : Tracking.BreakRequest :=
  Tracking.mk_BreakRequest "Emp800" BREAK1 None None (Some 20).

Definition break1_reversed : Tracking.BreakRequest :=
  Tracking.mk_BreakRequest "Emp800" BREAK1
    (Some (at_ 739486 10 30 0)) (Some (at_ 739486 10 0 0)) None.

End Examples.

(** ** More of app/database/repository.py *)

Module Repository.

(** [delete_time_entry]: [delete_one] on the natural key; the result tells
    whether a document was deleted. *)
Definition delete_time_entry (db : Store) (emp : string) (entry_date : Z)
    : Store * bool :=
  (delete (emp, entry_date) db, bool_decide (is_Some (db !! (emp, entry_date)))).

End Repository.

(** ** app/services/geo_timezone.py: [get_client_ip]

    Header values are texts of code points below 256, as the server decodes
    them; a [string] holds them one per character. *)

Module GeoTimezoneService.

(** What [get_client_ip] reads of the request: [request.headers.get] and the
    host of [request.client] (absent when there is no client). *)
Record HttpRequest := mk_HttpRequest {
  headers_get : string -> option string;
  client_host : option string
}.

(** [c.isspace()] for a code point below 256. *)
Definition isspace (c : Ascii.ascii) : bool :=
  let n := Ascii.N_of_ascii c in
  ((9 <=? n) && (n <=? 13) || (28 <=? n) && (n <=? 32)
   || (n =? 133) || (n =? 160))%N.

(** [s.split(",")[0]]; the comma is code point 44. *)
Fixpoint before_comma (s : string) : string :=
  match s with
  | EmptyString => EmptyString
  | String c rest =>
      if (Ascii.N_of_ascii c =? 44)%N then EmptyString else String c (before_comma rest)
  end.

(** [s.lstrip()], [s.rstrip()] and [s.strip()]. *)
Fixpoint lstrip (s : string) : string :=
  match s with
  | EmptyString => EmptyString
  | String c rest => if isspace c then lstrip rest else s
  end.

Fixpoint rstrip (s : string) : string :=
  match s with
  | EmptyString => EmptyString
  | String c rest =>
      match rstrip rest with
      | EmptyString => if isspace c then EmptyString else String c EmptyString
      | kept => String c kept
      end
  end.

Definition strip (s : string) : string := rstrip (lstrip s).

(** Truth value of an optional text: present and not empty. *)
Definition truthy (o : option string) : bool :=
  match o with
  | Some (String _ _) => true
  | _ => false
  end.

(** The test for localhost and private addresses. *)
Definition is_local (client_host : string) : bool :=
  bool_decide (client_host ∈ ["127.0.0.1"; "::1"; "localhost"])
  || String.prefix "192.168." client_host
  || String.prefix "10." client_host
  || String.prefix "172." client_host.

Definition get_client_ip (request : HttpRequest) : string :=
  let forwarded_for := headers_get request "X-Forwarded-For" in
  if truthy forwarded_for then
    strip (before_comma (default EmptyString forwarded_for))
  else
    let real_ip := headers_get request "X-Real-IP" in
    if truthy real_ip then default EmptyString real_ip
    else
      let client_host := default "127.0.0.1" (client_host request) in
      if is_local client_host then "203.192.1.1" else client_host.

End GeoTimezoneService.

(** ** More of app/routers/tracking.py *)

(** The clock of the timezone service: [get_current_time_in_timezone]. *)
Class Clock := {
  get_current_time_in_timezone : string -> Py.datetime
}.

Module Endpoints.

Record LoginRequest := mk_LoginRequest {
  li_emp_id : string;
  li_login_time : option Py.datetime
}.

Record LogoutRequest := mk_LogoutRequest {
  lo_emp_id : string;
  lo_logout_time : option Py.datetime
}.

(** The dict [login] returns. *)
Record LoginResponse := mk_LoginResponse {
  li_message : string;
  li_resp_emp_id : string;
  li_resp_login_time : Py.datetime;
  li_timezone : string;
  li_location : option Location;
  li_ip_address : string
}.

(** The dict [logout] returns. *)
Record LogoutResponse := mk_LogoutResponse {
  lo_message : string;
  lo_resp_emp_id : string;
  lo_resp_logout_time : Py.datetime;
  lo_timezone : string
}.

(** An element of [breaks_info]. *)
Record BreakInfo := mk_BreakInfo {
  bi_type : BreakType;
  bi_duration : string;
  bi_start_time : option Py.datetime;
  bi_end_time : option Py.datetime
}.

Record TimeCalculationResponse := mk_TimeCalculationResponse {
  r_emp_id : string;
  r_scenario : string;
  r_login_time : option Py.datetime;
  r_logout_time : option Py.datetime;
  r_breaks : list BreakInfo;
  r_total_work_hours : string;
  r_calculation_details : TimeCalculator.Details
}.

(** The dict [validate_break_timing] returns. *)
Record ValidateResponse := mk_ValidateResponse {
  v_valid : bool;
  v_overlap_detected : bool;
  v_overlap_details : option string
}.

(** [f"{m:02d}"] for [0 <= m]. *)
Definition format_02d (m : Z) : string :=
  if m <? 10 then "0" +:+ Py.str_Z m else Py.str_Z m.

(** The "hh:mm formatting" of [calculate_hours]. *)
Definition format_hours (hrs : Q) : string :=
  if Qeq_bool hrs 0 then "Absent"
  else
    let total := Py.round (hrs * 60) in
    let h := total / 60 in
    let m := total mod 60 in
    if m =? 0 then Py.str_Z h +:+ " hrs"
    else Py.str_Z h +:+ ":" +:+ format_02d m +:+ "hrs".

Definition break_info (b : BreakEntry) : BreakInfo :=
  {| bi_type := break_type b;
     bi_duration :=
       match duration_minutes b with
       | Some d => if d =? 0 then "Null" else Py.str_Z d +:+ "min"
       | None => "Null"
       end;
     bi_start_time := start_time b;
     bi_end_time := end_time b |}.

Section WithCollaborators.
Context `{Collaborators} `{Clock}.

Definition login (db : Store) (request : LoginRequest) (req : Request)
    : Store * LoginResponse :=
  let ip := get_client_ip req in
  let '(user_tz, loc) := get_timezone_from_ip ip in
  let login_time :=
    match li_login_time request with
    | Some t => t
    | None => get_current_time_in_timezone user_tz
    end in
  let login_time := _to_utc_naive login_time user_tz in
  let '(db', _) :=
    SessionManager.create_or_update_session db (li_emp_id request) (Some req)
      [SessionManager.kw_login_time login_time] in
  (db', {| li_message := "Login successful";
           li_resp_emp_id := li_emp_id request;
           li_resp_login_time := _to_user_zone login_time user_tz;
           li_timezone := user_tz;
           li_location := loc;
           li_ip_address := ip |}).

Definition logout (db : Store) (request : LogoutRequest) (req : Request)
    : Store * Py.Result LogoutResponse :=
  match SessionManager.get_current_session db (lo_emp_id request) with
  | None => (db, inl (Py.HTTPException 404 "No active session found"))
  | Some session =>
      let user_tz := Tracking.user_tz session in
      let logout_time :=
        match lo_logout_time request with
        | Some t => t
        | None => get_current_time_in_timezone user_tz
        end in
      let logout_time := _to_utc_naive logout_time user_tz in
      let '(db', _) :=
        SessionManager.create_or_update_session db (lo_emp_id request)
          (Some req) [SessionManager.kw_logout_time logout_time] in
      (db', inr {| lo_message := "Logout successful";
                   lo_resp_emp_id := lo_emp_id request;
                   lo_resp_logout_time := _to_user_zone logout_time user_tz;
                   lo_timezone := user_tz |})
  end.

Definition calculate_hours (db : Store) (emp : string)
    : Py.Result TimeCalculationResponse :=
  match SessionManager.get_current_session db emp with
  | None => inl (Py.HTTPException 404 "No session found for employee")
  | Some session =>
      let '(hrs, details, scenario) :=
        TimeCalculator.calculate_work_hours session in
      inr {| r_emp_id := emp;
             r_scenario := scenario;
             r_login_time := login_time session;
             r_logout_time := logout_time session;
             r_breaks := map break_info (breaks session);
             r_total_work_hours := format_hours hrs;
             r_calculation_details := details |}
  end.

Definition validate_break_timing (db : Store)
    (request : Tracking.BreakRequest) : Py.Result ValidateResponse :=
  match SessionManager.get_current_session db (Tracking.rq_emp_id request) with
  | None => inl (Py.HTTPException 404 "No active session found")
  | Some session =>
      let user_tz := Tracking.user_tz session in
      match BreakEntry_new (Tracking.rq_break_type request)
              (Tracking.start_utc request user_tz)
              (Tracking.end_utc request user_tz)
              (Tracking.rq_duration_minutes request) (Some "UTC") with
      | inl e => inl e
      | inr temp_entry =>
          let '(overlaps, details) :=
            TimeCalculator.check_overlapping_breaks
              (breaks session ++ [temp_entry]) in
          inr {| v_valid := negb overlaps;
                 v_overlap_detected := overlaps;
                 v_overlap_details := details |}
      end
  end.

End WithCollaborators.

End Endpoints.

(** ** More sample data *)

Module MoreExamples.

Definition clock : Clock :=
  {| get_current_time_in_timezone := fun _ => Examples.at_ 739486 12 0 0 |}.

(** A request behind a proxy, and a direct one from a private address. *)
Definition proxied : GeoTimezoneService.HttpRequest :=
  {| GeoTimezoneService.headers_get :=
       fun name => if String.eqb name "X-Forwarded-For"
                   then Some " 198.51.100.7 , 10.0.0.1" else None;
     GeoTimezoneService.client_host := Some "10.0.0.1" |}.

Definition direct_private : GeoTimezoneService.HttpRequest :=
  {| GeoTimezoneService.headers_get := fun _ => None;
     GeoTimezoneService.client_host := Some "192.168.1.20" |}.

End MoreExamples.

(** ** Vocabulary of the properties *)

(** Number of entries of kind [k] in a break list. *)
Definition count_kind (k : BreakType) (bs : list BreakEntry) : nat :=
  length (filter (fun b => break_type b = k) bs).

(** [t] is the element of the list [timed] that comes from position [i] of
    [bs], when positions are numbered from [n]. *)
Definition timed_at (n : nat) (bs : list BreakEntry) (i : nat)
    (t : TimeCalculator.Timed) : Prop :=
  bs !! i = Some (TimeCalculator.t_br t) /\
  start_time (TimeCalculator.t_br t) = Some (TimeCalculator.t_start t) /\
  end_time (TimeCalculator.t_br t) = Some (TimeCalculator.t_end t) /\
  TimeCalculator.t_idx t = (n + i)%nat.

(** Minutes of a break as the calculator counts them (0 when unset). *)
Definition duration_of (b : BreakEntry) : Z := default 0 (duration_minutes b).

(** Sum of the counted minutes of a break list. *)
Definition sum_durations (bs : list BreakEntry) : Z :=
  foldr (fun b acc => duration_of b + acc) 0 bs.

(** Counted minutes of the last entry of kind [k], 0 when there is none. *)
Definition last_duration (k : BreakType) (bs : list BreakEntry) : Z :=
  match last (filter (fun b => break_type b = k) bs) with
  | Some b => duration_of b
  | None => 0
  end.

(** Signed adjustment of a mandatory slot on a full day: the unused minutes
    (positive) or the excess (negative) of a break that was taken. *)
Definition slot_adjustment (actual : Z) : Z :=
  if 0 <? actual then 30 - actual else 0.

(** Minutes above the cap of 30. *)
Definition excess (actual : Z) : Z := Z.max 0 (actual - 30).

(** What the calculator reads of a break: its kind and its minutes. *)
Definition calc_view (b : BreakEntry) : BreakType * option Z :=
  (break_type b, duration_minutes b).

(** What the overlap detector reads of a break: its kind and timestamps. *)
Definition interval_view (b : BreakEntry)
    : BreakType * option Py.datetime * option Py.datetime :=
  (break_type b, start_time b, end_time b).

(** Seconds since midnight of a datetime. *)
Definition seconds_of_day (d : Py.datetime) : Z :=
  Py.hour d * 3600 + Py.minute d * 60 + Py.second d.

(** Two breaks are both timed and their intervals are not disjoint. *)
Definition overlapping_pair (b1 b2 : BreakEntry) : Prop :=
  exists s1 e1 s2 e2,
    start_time b1 = Some s1 /\ end_time b1 = Some e1 /\
    start_time b2 = Some s2 /\ end_time b2 = Some e2 /\
    ~ (Py.le e1 s2 \/ Py.le e2 s1).

(** A break without start or without end. *)
Definition untimed (b : BreakEntry) : Prop :=
  start_time b = None \/ end_time b = None.

(** What [overlap_of] and [disjoint] read of an element of [timed]. *)
Definition timed_view (t : TimeCalculator.Timed)
    : nat * BreakType * Py.datetime * Py.datetime :=
  (TimeCalculator.t_idx t, break_type (TimeCalculator.t_br t),
   TimeCalculator.t_start t, TimeCalculator.t_end t).

(** The session the merger stores for a call: the refreshed fold of the
    keyword arguments over the existing session, or the new session seeded
    with them. *)
Definition merged_session `{Collaborators} (db : Store) (emp : string)
    (request : option Request) (kwargs : list SessionManager.KwArg)
    : TimeEntry :=
  let '(timezone_str, location_info, ip) := SessionManager.resolve request in
  match TimeEntryRepository.get_time_entry db emp current_date with
  | Some existing_session =>
      SessionManager.refresh
        (foldl SessionManager.apply_kwarg existing_session kwargs)
        timezone_str location_info ip
  | None =>
      foldl (fun s kw =>
               match kw with
               | SessionManager.kw_login_time v =>
                   SessionManager.set_login_time s (Some v)
               | SessionManager.kw_logout_time v =>
                   SessionManager.set_logout_time s (Some v)
               | SessionManager.kw_breaks v => SessionManager.set_breaks s v
               end)
            {| emp_id := emp;
               date := Py.mk_datetime current_date 0 0 0 0;
               login_time := None; logout_time := None; breaks := [];
               total_work_hours := None; scenario := None;
               timezone := timezone_str; ip_address := ip;
               location := location_info |}
            kwargs
  end.

(** A keyword argument other than [breaks]. *)
Definition not_breaks (kw : SessionManager.KwArg) : Prop :=
  match kw with
  | SessionManager.kw_breaks _ => False
  | _ => True
  end.

(** Every character of a text satisfies a test; the first and the last
    character of a text. *)
Fixpoint string_all (P : Ascii.ascii -> bool) (s : string) : bool :=
  match s with
  | EmptyString => true
  | String c rest => P c && string_all P rest
  end.

Definition first_char (s : string) : option Ascii.ascii :=
  match s with
  | EmptyString => None
  | String c _ => Some c
  end.

Fixpoint last_char (s : string) : option Ascii.ascii :=
  match s with
  | EmptyString => None
  | String c rest =>
      match last_char rest with
      | Some d => Some d
      | None => Some c
      end
  end.

Definition not_comma (c : Ascii.ascii) : bool :=
  negb (Ascii.N_of_ascii c =? 44)%N.

(** * Properties *)

(** ** Arithmetic of the modelled Python values *)

Lemma Qltb_true (x y : Q) : Py.Qltb x y = true <-> (x < y)%Q.
Proof.
  unfold Py.Qltb. rewrite negb_true_iff, <- not_true_iff_false, Qle_bool_iff.
  split; [apply Qnot_le_lt | apply Qlt_not_le].
Qed.

Lemma Qltb_false (x y : Q) : Py.Qltb x y = false <-> (y <= x)%Q.
Proof.
  unfold Py.Qltb. rewrite negb_false_iff. apply Qle_bool_iff.
Qed.

Lemma qmax_lower (a b : Q) : (a <= Py.qmax a b)%Q.
Proof.
  unfold Py.qmax. destruct (Py.Qltb a b) eqn:E.
  - apply Qltb_true in E. lra.
  - lra.
Qed.

Lemma qmax_upper (a b c : Q) : (a <= c)%Q -> (b <= c)%Q -> (Py.qmax a b <= c)%Q.
Proof. unfold Py.qmax. destruct (Py.Qltb a b); auto. Qed.

Lemma qmin_upper (a b : Q) : (Py.qmin a b <= a)%Q.
Proof.
  unfold Py.qmin. destruct (Py.Qltb b a) eqn:E.
  - apply Qltb_true in E. lra.
  - lra.
Qed.

Lemma qmax_zero_of_nonpos (x : Q) : (x <= 0)%Q -> (Py.qmax 0 x == 0)%Q.
Proof.
  intros Hx. unfold Py.qmax. destruct (Py.Qltb 0 x) eqn:E.
  - apply Qltb_true in E. lra.
  - reflexivity.
Qed.

(** The order on datetimes, taken through [to_micro], is the field-wise
    order Python uses. *)
Lemma to_micro_lt_lex (a b : Py.datetime) :
  Py.datetime_ok a -> Py.datetime_ok b ->
  (Py.lt a b <->
   Py.ordinal a < Py.ordinal b \/
   Py.ordinal a = Py.ordinal b /\
   (Py.hour a < Py.hour b \/
    Py.hour a = Py.hour b /\
    (Py.minute a < Py.minute b \/
     Py.minute a = Py.minute b /\
     (Py.second a < Py.second b \/
      Py.second a = Py.second b /\ Py.microsecond a < Py.microsecond b)))).
Proof.
  unfold Py.datetime_ok, Py.lt, Py.to_micro. lia.
Qed.

(** ** The calculator *)

Section Calculator.
Import TimeCalculator.

(** The result of [calculate_work_hours] on a session with a login, written
    with the intermediate values named. *)
Lemma calculate_work_hours_login (te : TimeEntry) (login : Py.datetime) :
  login_time te = Some login ->
  let logout := effective_logout (logout_time te) login in
  let total := logged_hours logout login in
  let a := accumulate (breaks te) in
  let ov := (handle_overlapping_breaks (breaks te)).2 in
  let branch := if full_day_test total then full_day a else partial_day total a in
  let sc0 := match logout_time te with
             | Some _ => "Calculation" | None => "Emp forgot to logout" end in
  let sc1 := if bool_decide (branch.1.2 ≠ 0) then "Emp exceeds break" else sc0 in
  let sc2 := if has_overlaps ov then sc1 +:+ " with overlapping breaks" else sc1 in
  calculate_work_hours te =
    (branch.1.1,
     Computed
       {| d_total_logged_hours := total;
          d_is_full_workday := full_day_test total;
          d_login_time := login;
          d_logout_time := logout;
          d_mandatory_breaks := mandatory_breaks a;
          d_bio_breaks := bio_breaks a;
          d_adjustments := branch.2;
          d_overlap_handling := ov;
          d_total_break_minutes := total_break_min a;
          d_final_work_hours := branch.1.1 |},
     sc2).
Proof.
  intros Hlogin. cbv zeta. unfold calculate_work_hours. rewrite Hlogin.
  unfold handle_overlapping_breaks.
  destruct (check_overlapping_breaks (breaks te)) as [has msg]. cbn [snd].
  destruct (if full_day_test _ then _ else _) as [[fh pm] adj].
  reflexivity.
Qed.

Lemma full_day_bounds (a : Acc) :
  (0 <= (full_day a).1.1 <= inject_Z STANDARD_WORK_HOURS)%Q.
Proof.
  unfold full_day.
  destruct (_adj (b1_min a) "break1" ∅) as [r1 adj1].
  destruct (_adj (b2_min a) "break2" adj1) as [r2 adj2].
  destruct (MAX_BIO_BREAK_MINUTES <? bio_min a); cbn [fst snd];
    (split; [apply qmax_lower | apply qmax_upper; [done | apply qmin_upper]]).
Qed.

Lemma partial_day_penalty_nonneg (t : Q) (a : Acc) :
  0 <= (partial_day t a).1.2.
Proof.
  unfold partial_day, MANDATORY_BREAK_MINUTES, MAX_BIO_BREAK_MINUTES.
  repeat case_match; simplify_eq/=; lia.
Qed.

Lemma inject_Z_nonneg (x : Z) : 0 <= x -> (0 <= inject_Z x)%Q.
Proof. intros Hx. change 0%Q with (inject_Z 0). by rewrite <- Zle_Qle. Qed.

Lemma partial_day_final (t : Q) (a : Acc) :
  (partial_day t a).1.1 =
  Py.qmax 0 (t - inject_Z (total_break_min a) / 60
             - inject_Z (partial_day t a).1.2 / 60).
Proof. unfold partial_day. repeat case_match; simplify_eq/=; reflexivity. Qed.

(** The defaulted logout of a login at or after 18:00 is not after it. *)
Lemma default_logout_not_after (login : Py.datetime) :
  Py.datetime_ok login -> DEFAULT_LOGOUT_HOUR <= Py.hour login ->
  Py.le (effective_logout None login) login.
Proof.
  intros (Hh & Hm & Hs & Hu) H18.
  unfold Py.le, effective_logout, Py.replace_hms, Py.to_micro,
    DEFAULT_LOGOUT_HOUR in *.
  cbn [Py.ordinal Py.hour Py.minute Py.second Py.microsecond]. lia.
Qed.

Lemma logged_hours_nonpos (logout login : Py.datetime) :
  Py.le logout login -> (logged_hours logout login <= 0)%Q.
Proof.
  unfold Py.le, logged_hours, Py.total_seconds, Py.sub. intros Hle.
  unfold Qdiv. change (/ 3600)%Q with (1 # 3600)%Q.
  assert (Hq : (Py.to_micro logout - Py.to_micro login # 1000000 <= 0)%Q).
  { unfold Qle. cbn [Qnum Qden]. lia. }
  lra.
Qed.

Lemma full_day_test_spec (t : Q) :
  full_day_test t = true <-> (Qabs (t - 9) < 1 # 2)%Q.
Proof. unfold full_day_test, STANDARD_WORK_HOURS. apply Qltb_true. Qed.

Lemma full_day_test_nonpos (t : Q) : (t <= 0)%Q -> full_day_test t = false.
Proof.
  intros Ht. apply not_true_iff_false. rewrite full_day_test_spec.
  rewrite Qabs_Qlt_condition. lra.
Qed.

(** C5.  A session without login yields exactly 0.0 hours, the detail
    [{"error": "No login time recorded"}] and the scenario "Absent",
    whatever its logout and breaks are. *)
Theorem absent_session_zero_hours (te : TimeEntry) :
  login_time te = None ->
  calculate_work_hours te =
    (0%Q, ErrorDetails "No login time recorded", "Absent").
Proof. intros Hlogin. unfold calculate_work_hours. by rewrite Hlogin. Qed.

Lemma absent_session_zero_hours_witness :
  calculate_work_hours Examples.emp567 =
    (0%Q, ErrorDetails "No login time recorded", "Absent").
Proof. apply (absent_session_zero_hours Examples.emp567). reflexivity. Defined.

(** C4.  With a login present, the session is flagged a full workday
    exactly when |total_logged_hours - 9| < 0.5, where total_logged_hours
    is the span from login to the effective logout in hours; and a full
    workday's final hours lie between 0 and 9, whatever the breaks are. *)
Theorem full_workday_classification_and_cap (te : TimeEntry)
    (login : Py.datetime) :
  login_time te = Some login ->
  let logout := effective_logout (logout_time te) login in
  let total := ((Py.to_micro logout - Py.to_micro login # 1000000) / 3600)%Q in
  exists d : CalcDetails,
    (calculate_work_hours te).1.2 = Computed d /\
    d_total_logged_hours d = total /\
    d_final_work_hours d = (calculate_work_hours te).1.1 /\
    (d_is_full_workday d = true <-> (Qabs (total - 9) < 1 # 2)%Q) /\
    (d_is_full_workday d = true ->
     (0 <= (calculate_work_hours te).1.1 <= 9)%Q).
Proof.
  intros Hlogin logout total.
  rewrite (calculate_work_hours_login te login Hlogin). cbn [fst snd].
  eexists. split; [reflexivity|]. cbn [d_total_logged_hours
    d_final_work_hours d_is_full_workday].
  split; [reflexivity|]. split; [reflexivity|].
  fold logout. change (logged_hours logout login) with total.
  split; [apply full_day_test_spec|].
  intros ->. apply full_day_bounds.
Qed.

Lemma full_workday_classification_and_cap_witness :
  exists d : CalcDetails,
    (calculate_work_hours Examples.emp239).1.2 = Computed d /\
    d_total_logged_hours d
    = ((Py.to_micro (Examples.at_ 739486 18 0 0)
        - Py.to_micro (Examples.at_ 739486 9 0 0) # 1000000) / 3600)%Q /\
    d_final_work_hours d = (calculate_work_hours Examples.emp239).1.1 /\
    (d_is_full_workday d = true <->
     (Qabs (((Py.to_micro (Examples.at_ 739486 18 0 0)
              - Py.to_micro (Examples.at_ 739486 9 0 0) # 1000000) / 3600)
            - 9) < 1 # 2)%Q) /\
    (d_is_full_workday d = true ->
     (0 <= (calculate_work_hours Examples.emp239).1.1 <= 9)%Q).
Proof.
  apply (full_workday_classification_and_cap Examples.emp239
           (Examples.at_ 739486 9 0 0)).
  reflexivity.
Defined.

(** C1.  On a full-day session whose breaks give Break1 = 35, Break2 = 40
    and Bio = 30 the code returns 8.75 hours, but the excess minutes are
    accumulated as a negative bonus and [penalty_min] stays 0, so the label
    is not overwritten: the scenario is the logout-status label (with the
    overlap suffix when overlaps exist), never "Emp exceeds break". *)
Theorem full_day_excess_breaks_hours_and_label (te : TimeEntry)
    (login : Py.datetime) :
  login_time te = Some login ->
  full_day_test
    (logged_hours (effective_logout (logout_time te) login) login) = true ->
  b1_min (accumulate (breaks te)) = 35 ->
  b2_min (accumulate (breaks te)) = 40 ->
  bio_min (accumulate (breaks te)) = 30 ->
  ((calculate_work_hours te).1.1 == 35 # 4)%Q /\
  (calculate_work_hours te).2 =
    (let label := match logout_time te with
                  | Some _ => "Calculation"
                  | None => "Emp forgot to logout"
                  end in
     if (check_overlapping_breaks (breaks te)).1
     then label +:+ " with overlapping breaks" else label) /\
  (calculate_work_hours te).2 <> "Emp exceeds break".
Proof.
  intros Hlogin Hfull H1 H2 H3.
  rewrite (calculate_work_hours_login te login Hlogin). cbn [fst snd].
  rewrite Hfull.
  assert (Hfd : ((full_day (accumulate (breaks te))).1.1 == 35 # 4)%Q /\
                (full_day (accumulate (breaks te))).1.2 = 0).
  { unfold full_day. rewrite H1, H2, H3. split; reflexivity. }
  destruct Hfd as [Hh Hp]. rewrite Hp.
  assert (Hov : has_overlaps (handle_overlapping_breaks (breaks te)).2
                = (check_overlapping_breaks (breaks te)).1).
  { unfold handle_overlapping_breaks.
    by destruct (check_overlapping_breaks (breaks te)). }
  rewrite Hov. split; [exact Hh|].
  rewrite bool_decide_eq_false_2 by (intros Hne; by apply Hne).
  split; [reflexivity|].
  destruct (check_overlapping_breaks (breaks te)).1, (logout_time te);
    discriminate.
Qed.

Lemma full_day_excess_breaks_hours_and_label_witness :
  ((calculate_work_hours Examples.emp239).1.1 == 35 # 4)%Q /\
  (calculate_work_hours Examples.emp239).2 = "Calculation" /\
  (calculate_work_hours Examples.emp239).2 <> "Emp exceeds break".
Proof.
  apply (full_day_excess_breaks_hours_and_label Examples.emp239
           (Examples.at_ 739486 9 0 0)); reflexivity.
Defined.

(** C10, the claim as stated fails: a login at 19:00 without logout and
    with a bio break of -120 minutes gives 1 hour, not 0. *)
Lemma late_login_negative_duration_counterexample :
  login_time Examples.late_login_negative = Some (Examples.at_ 739486 19 0 0) /\
  logout_time Examples.late_login_negative = None /\
  Py.datetime_ok (Examples.at_ 739486 19 0 0) /\
  18 <= Py.hour (Examples.at_ 739486 19 0 0) /\
  ((calculate_work_hours Examples.late_login_negative).1.1 == 1)%Q /\
  ~ ((calculate_work_hours Examples.late_login_negative).1.1 == 0)%Q.
Proof.
  split; [reflexivity|]. split; [reflexivity|].
  split; [unfold Py.datetime_ok; cbn; lia|].
  split; [cbn; lia|].
  split; [reflexivity|]. vm_compute. discriminate.
Qed.

(** C10, amended.  With login present, logout absent, the login's time of
    day at or after 18:00 and a non-negative total of break minutes, the
    defaulted logout is not after the login, the logged hours are at most
    0, the session is a partial day and the final hours are exactly 0. *)
Theorem late_login_default_logout_zero_hours (te : TimeEntry)
    (login : Py.datetime) :
  login_time te = Some login ->
  logout_time te = None ->
  Py.datetime_ok login ->
  18 <= Py.hour login ->
  0 <= total_break_min (accumulate (breaks te)) ->
  let logout := Py.replace_hms login 18 0 0 in
  Py.le logout login /\
  exists d : CalcDetails,
    (calculate_work_hours te).1.2 = Computed d /\
    d_logout_time d = logout /\
    (d_total_logged_hours d <= 0)%Q /\
    d_is_full_workday d = false /\
    ((calculate_work_hours te).1.1 == 0)%Q.
Proof.
  intros Hlogin Hlogout Hok H18 Hbreaks logout.
  pose proof (default_logout_not_after login Hok H18) as Hle.
  split; [exact Hle|].
  rewrite (calculate_work_hours_login te login Hlogin). cbn [fst snd].
  rewrite Hlogout.
  pose proof (logged_hours_nonpos _ _ Hle) as Ht.
  rewrite (full_day_test_nonpos _ Ht).
  eexists. split; [reflexivity|].
  cbn [d_logout_time d_total_logged_hours d_is_full_workday].
  split; [reflexivity|]. split; [exact Ht|]. split; [reflexivity|].
  rewrite partial_day_final. apply qmax_zero_of_nonpos.
  pose proof (partial_day_penalty_nonneg
                (logged_hours (effective_logout None login) login)
                (accumulate (breaks te))) as Hpen.
  apply inject_Z_nonneg in Hpen. apply inject_Z_nonneg in Hbreaks.
  unfold Qdiv. change (/ 60)%Q with (1 # 60)%Q. lra.
Qed.

Lemma late_login_default_logout_zero_hours_witness :
  Py.le (Py.replace_hms (Examples.at_ 739486 19 0 0) 18 0 0)
        (Examples.at_ 739486 19 0 0) /\
  exists d : CalcDetails,
    (calculate_work_hours Examples.late_login).1.2 = Computed d /\
    d_logout_time d = Py.replace_hms (Examples.at_ 739486 19 0 0) 18 0 0 /\
    (d_total_logged_hours d <= 0)%Q /\
    d_is_full_workday d = false /\
    ((calculate_work_hours Examples.late_login).1.1 == 0)%Q.
Proof.
  apply (late_login_default_logout_zero_hours Examples.late_login
           (Examples.at_ 739486 19 0 0)).
  - reflexivity.
  - reflexivity.
  - unfold Py.datetime_ok; cbn; lia.
  - cbn; lia.
  - vm_compute. discriminate.
Defined.

End Calculator.

(** ** The break entry *)

Section BreakEntryFacts.

Lemma leb_le (a b : Py.datetime) : Py.leb a b = true <-> Py.le a b.
Proof. unfold Py.leb, Py.le. apply Z.leb_le. Qed.

Lemma leb_gt (a b : Py.datetime) : Py.leb a b = false <-> Py.lt b a.
Proof. unfold Py.leb, Py.lt. apply Z.leb_gt. Qed.

Lemma BreakEntry_new_timed (bt : BreakType) (s e : Py.datetime)
    (d : option Z) (tz : option string) :
  BreakEntry_new bt (Some s) (Some e) d tz =
  if Py.leb e s then inl (Py.ValidationError "End time must be after start time")
  else inr {| break_type := bt; start_time := Some s; end_time := Some e;
              duration_minutes := calculate_duration d (Some s) (Some e);
              be_timezone := tz |}.
Proof.
  unfold BreakEntry_new, validate_end_time. by destruct (Py.leb e s).
Qed.

(** Every constructed entry satisfies the invariant. *)
Lemma BreakEntry_new_ok bt start end_ d tz b :
  BreakEntry_new bt start end_ d tz = inr b -> BreakEntry_ok b.
Proof.
  unfold BreakEntry_new, validate_end_time, BreakEntry_ok.
  destruct end_ as [e|], start as [s|]; try destruct (Py.leb e s) eqn:E;
    intros Hb; simplify_eq; cbn; try done.
  by apply leb_gt.
Qed.

(** [int(total_seconds / 60)] of a non-negative span is the number of whole
    minutes in it. *)
Lemma int_minutes (td : Z) :
  0 <= td -> Py.int (Py.total_seconds td / 60) = td / 60000000.
Proof.
  intros Htd. unfold Py.int, Py.total_seconds, Qdiv.
  change (/ 60)%Q with (1 # 60)%Q. cbn [Qmult Qnum Qden].
  rewrite Z.mul_1_r. change (1000000 * 60)%positive with 60000000%positive.
  apply Z.quot_div_nonneg; lia.
Qed.

(** C7, the claim as stated fails: for a break of 110 seconds the stored
    duration is 1 minute, while rounding to the nearest minute gives 2. *)
Lemma break_110_seconds_counterexample :
  let s := Examples.at_ 739486 10 0 0 in
  let e := Examples.at_ 739486 10 1 50 in
  Py.total_seconds (Py.sub e s) = (110000000 # 1000000)%Q /\
  Py.round (Py.total_seconds (Py.sub e s) / 60) = 2 /\
  exists b, BreakEntry_new BIO (Some s) (Some e) None (Some "UTC") = inr b /\
            duration_minutes b = Some 1 /\
            duration_minutes b
            <> Some (Py.round (Py.total_seconds (Py.sub e s) / 60)).
Proof.
  cbv zeta. split; [reflexivity|]. split; [reflexivity|].
  eexists. split; [reflexivity|]. split; [reflexivity|]. discriminate.
Qed.

(** C7, amended.  A break entry constructed with both start and end and no
    explicit duration stores [int((end - start) in seconds / 60)]: the
    seconds divided by 60 and truncated, that is the number of whole
    minutes of the span (a 110-second break yields 1 minute). *)
Theorem derived_duration_truncates (bt : BreakType) (s e : Py.datetime)
    (tz : option string) (b : BreakEntry) :
  BreakEntry_new bt (Some s) (Some e) None tz = inr b ->
  exists m : Z,
    duration_minutes b = Some m /\
    m = Py.int (Py.total_seconds (Py.sub e s) / 60) /\
    (forall (C : Collaborators) (request : Tracking.BreakRequest) (zone : string),
       Tracking.start_utc request zone = Some s ->
       Tracking.end_utc request zone = Some e ->
       Tracking.rq_duration_minutes request = None ->
       Tracking.auto_duration request zone = Some m) /\
    0 <= m /\
    m * 60000000 <= Py.to_micro e - Py.to_micro s < (m + 1) * 60000000.
Proof.
  rewrite BreakEntry_new_timed. destruct (Py.leb e s) eqn:E; [done|].
  intros [= <-]. apply leb_gt in E. unfold Py.lt in E.
  eexists. split; [reflexivity|]. split; [reflexivity|].
  split.
  { intros C request zone Hs He Hd. unfold Tracking.auto_duration.
    by rewrite Hs, He, Hd. }
  rewrite int_minutes by (unfold Py.sub; lia). unfold Py.sub.
  pose proof (Z.div_mod (Py.to_micro e - Py.to_micro s) 60000000
                ltac:(lia)) as Hdm.
  pose proof (Z.mod_pos_bound (Py.to_micro e - Py.to_micro s) 60000000
                ltac:(lia)) as Hmod.
  split; [apply Z.div_pos; lia | lia].
Qed.

Lemma derived_duration_truncates_witness :
  exists m : Z,
    duration_minutes
      (mk_BreakEntry BIO (Some (Examples.at_ 739486 10 0 0))
         (Some (Examples.at_ 739486 10 1 50)) (Some 1) (Some "UTC")) = Some m /\
    m = Py.int (Py.total_seconds
                  (Py.sub (Examples.at_ 739486 10 1 50)
                          (Examples.at_ 739486 10 0 0)) / 60) /\
    (forall (C : Collaborators) (request : Tracking.BreakRequest) (zone : string),
       Tracking.start_utc request zone = Some (Examples.at_ 739486 10 0 0) ->
       Tracking.end_utc request zone = Some (Examples.at_ 739486 10 1 50) ->
       Tracking.rq_duration_minutes request = None ->
       Tracking.auto_duration request zone = Some m) /\
    0 <= m /\
    m * 60000000
    <= Py.to_micro (Examples.at_ 739486 10 1 50)
       - Py.to_micro (Examples.at_ 739486 10 0 0)
    < (m + 1) * 60000000.
Proof.
  apply (derived_duration_truncates BIO (Examples.at_ 739486 10 0 0)
           (Examples.at_ 739486 10 1 50) (Some "UTC")).
  reflexivity.
Defined.

End BreakEntryFacts.

(** ** The merger's break rule *)

Section MergeBreak.
Import SessionManager.

Lemma count_kind_app (k : BreakType) (l1 l2 : list BreakEntry) :
  count_kind k (l1 ++ l2) = (count_kind k l1 + count_kind k l2)%nat.
Proof. unfold count_kind. by rewrite filter_app, length_app. Qed.

Lemma count_kind_cons (k : BreakType) (b : BreakEntry) (l : list BreakEntry) :
  count_kind k (b :: l) =
  ((if decide (break_type b = k) then 1 else 0) + count_kind k l)%nat.
Proof. unfold count_kind. rewrite filter_cons. by case_decide. Qed.

Lemma count_kind_zero (k : BreakType) (l : list BreakEntry) :
  Forall (fun b => break_type b <> k) l -> count_kind k l = 0%nat.
Proof.
  induction 1 as [|b l Hb _ IH]; [done|].
  rewrite count_kind_cons, IH. by case_decide.
Qed.

Lemma is_bio (b : BreakEntry) :
  String.eqb (BreakType_value (break_type b)) "bio" = true
  <-> break_type b = BIO.
Proof. by destruct (break_type b). Qed.

Lemma merge_break_bio (bs : list BreakEntry) (nb : BreakEntry) :
  break_type nb = BIO -> merge_break bs nb = bs ++ [nb].
Proof. intros Hb. unfold merge_break. by rewrite Hb. Qed.

Lemma merge_break_replace (l1 l2 : list BreakEntry) (b nb : BreakEntry) :
  break_type nb <> BIO ->
  break_type b = break_type nb ->
  Forall (fun x => break_type x <> break_type nb) l1 ->
  merge_break (l1 ++ b :: l2) nb = l1 ++ nb :: l2.
Proof.
  intros Hnb Hb Hl1. unfold merge_break.
  destruct (String.eqb _ "bio") eqn:E; [by apply is_bio in E|].
  destruct (list_find _ _) as [[i x]|] eqn:F.
  - apply list_find_Some in F as (Hi & Hx & Hmin).
    assert (i = length l1) as ->.
    { destruct (Nat.lt_total i (length l1)) as [Hlt|[->|Hgt]]; [|done|].
      - rewrite lookup_app_l in Hi by done.
        rewrite Forall_forall in Hl1.
        exfalso. eapply Hl1; [|exact Hx].
        eapply list_elem_of_lookup_2, Hi.
      - exfalso. apply (Hmin (length l1) b); [|done|done].
        by rewrite list_lookup_middle. }
    by rewrite insert_app_r_alt, Nat.sub_diag by done.
  - apply list_find_None in F. rewrite Forall_app, Forall_cons in F.
    by destruct F as (_ & Hc & _).
Qed.

Lemma merge_break_append (bs : list BreakEntry) (nb : BreakEntry) :
  Forall (fun x => break_type x <> break_type nb) bs ->
  merge_break bs nb = bs ++ [nb].
Proof.
  intros Hbs. unfold merge_break.
  destruct (String.eqb _ "bio"); [done|].
  destruct (list_find _ _) as [[i x]|] eqn:F; [|done].
  apply list_find_Some in F as (Hi & Hx & _).
  rewrite Forall_forall in Hbs. exfalso. eapply Hbs; [|exact Hx].
  eapply list_elem_of_lookup_2, Hi.
Qed.

(** A break list either holds no entry of a kind or splits at the first. *)
Lemma first_of_kind (k : BreakType) (bs : list BreakEntry) :
  Forall (fun x => break_type x <> k) bs \/
  exists l1 b l2, bs = l1 ++ b :: l2 /\ break_type b = k /\
                  Forall (fun x => break_type x <> k) l1.
Proof.
  induction bs as [|b bs IH]; [by left|].
  destruct (decide (break_type b = k)) as [Hb|Hb].
  - right. exists [], b, bs. by repeat split.
  - destruct IH as [IH|(l1 & b' & l2 & -> & Hb' & Hl1)].
    + left. by constructor.
    + right. exists (b :: l1), b', l2. repeat split; [done|by constructor].
Qed.

Lemma merge_break_count (k : BreakType) (bs : list BreakEntry)
    (nb : BreakEntry) :
  count_kind k (merge_break bs nb) =
  if decide (break_type nb = k) then
    if decide (k = BIO) then S (count_kind k bs)
    else Nat.max 1 (count_kind k bs)
  else count_kind k bs.
Proof.
  destruct (decide (break_type nb = BIO)) as [Hbio|Hbio].
  - rewrite merge_break_bio, count_kind_app, count_kind_cons by done.
    unfold count_kind at 2. cbn.
    repeat case_decide; try congruence; lia.
  - destruct (first_of_kind (break_type nb) bs)
      as [Hnone|(l1 & b & l2 & -> & Hb & Hl1)].
    + rewrite merge_break_append, count_kind_app, count_kind_cons by done.
      unfold count_kind at 2. cbn.
      repeat case_decide; try congruence; try lia.
      subst k. rewrite (count_kind_zero _ _ Hnone). lia.
    + rewrite merge_break_replace by done.
      rewrite !count_kind_app, !count_kind_cons. rewrite Hb.
      repeat case_decide; try congruence; try lia.
Qed.

End MergeBreak.

(** ** The merger and the break-recording endpoint *)

Section Endpoint.
Context `{Collaborators}.
Import SessionManager Tracking TimeCalculator.

(** Merging one break into an existing session. *)
Lemma create_or_update_session_break (db : Store) (emp : string)
    (request : option Request) (session : TimeEntry) (nb : BreakEntry) :
  TimeEntryRepository.get_time_entry db emp current_date = Some session ->
  exists s',
    create_or_update_session db emp request [kw_breaks [nb]]
    = (<[(emp, current_date) := s']> db, Some s') /\
    breaks s' = merge_break (breaks session) nb /\
    login_time s' = login_time session /\
    logout_time s' = logout_time session.
Proof.
  intros Hget. unfold create_or_update_session.
  destruct (resolve request) as [[tz loc] ip]. rewrite Hget.
  unfold TimeEntryRepository.update_time_entry.
  unfold TimeEntryRepository.get_time_entry in Hget. rewrite Hget.
  eexists. split; [reflexivity|]. by cbn.
Qed.

(** C3.  Merging a single break into an existing session stores the
    session with the break list given by the rule: a Bio break is appended;
    a Break1 or Break2 break replaces the first entry of its kind when
    there is one and is appended otherwise.  Hence at most one Break1 and
    at most one Break2 stay at most one, each Bio merge adds one Bio entry,
    and any sequence of Bio breaks is appended whole. *)
Theorem merger_break_rule (db : Store) (emp : string)
    (request : option Request) (session : TimeEntry) (nb : BreakEntry) :
  TimeEntryRepository.get_time_entry db emp current_date = Some session ->
  let bs := breaks session in
  (exists s',
     create_or_update_session db emp request [kw_breaks [nb]]
     = (<[(emp, current_date) := s']> db, Some s') /\
     breaks s' = merge_break bs nb) /\
  (break_type nb = BIO -> merge_break bs nb = bs ++ [nb]) /\
  (break_type nb <> BIO ->
   forall l1 b l2,
     bs = l1 ++ b :: l2 -> break_type b = break_type nb ->
     Forall (fun x => break_type x <> break_type nb) l1 ->
     merge_break bs nb = l1 ++ nb :: l2) /\
  (break_type nb <> BIO ->
   Forall (fun x => break_type x <> break_type nb) bs ->
   merge_break bs nb = bs ++ [nb]) /\
  ((count_kind BREAK1 bs <= 1)%nat ->
   (count_kind BREAK1 (merge_break bs nb) <= 1)%nat) /\
  ((count_kind BREAK2 bs <= 1)%nat ->
   (count_kind BREAK2 (merge_break bs nb) <= 1)%nat) /\
  (break_type nb = BIO ->
   count_kind BIO (merge_break bs nb) = S (count_kind BIO bs)) /\
  (forall bios, Forall (fun b => break_type b = BIO) bios ->
                foldl merge_break bs bios = bs ++ bios).
Proof.
  intros Hget bs.
  split.
  { destruct (create_or_update_session_break db emp request session nb Hget)
      as (s' & Hs' & Hb & _). by exists s'. }
  split; [apply merge_break_bio|].
  split.
  { intros Hnb l1 b l2 -> Hb Hl1. by apply merge_break_replace. }
  split; [intros _; apply merge_break_append|].
  split.
  { intros Hc. rewrite merge_break_count. repeat case_decide; try done; lia. }
  split.
  { intros Hc. rewrite merge_break_count. repeat case_decide; try done; lia. }
  split.
  { intros Hb. rewrite merge_break_count.
    repeat case_decide; try done; congruence. }
  intros bios. generalize bs. clear.
  induction bios as [|b bios IH]; intros bs Hbios.
  - by rewrite app_nil_r.
  - apply Forall_cons in Hbios as [Hb Hbios]. cbn [foldl].
    rewrite merge_break_bio by done. rewrite IH by done.
    by rewrite <- app_assoc.
Qed.

Lemma check_overlapping_breaks_pair (bs : list BreakEntry) :
  check_overlapping_breaks bs
  = ((check_overlapping_breaks bs).1, (check_overlapping_breaks bs).2).
Proof. by destruct (check_overlapping_breaks bs). Qed.

(** C2.  What the endpoint does when the new break overlaps a recorded one:
    it returns the dict with the overlap warning before the merger is
    called, so the store, and with it the day's session, is unchanged. *)
Theorem record_break_overlap_not_recorded (db : Store)
    (request : BreakRequest) (req : Request) (session : TimeEntry)
    (break_entry : BreakEntry) :
  get_current_session db (rq_emp_id request) = Some session ->
  make_break_entry request (user_tz session) = inr break_entry ->
  already_recorded break_entry session = false ->
  (check_overlapping_breaks (breaks session ++ [break_entry])).1 = true ->
  record_break db request req
  = (db, inr (OverlapWarning "Break recorded with overlap warning"
                (check_overlapping_breaks
                   (breaks session ++ [break_entry])).2 true)) /\
  get_current_session (record_break db request req).1 (rq_emp_id request)
  = Some session.
Proof.
  intros Hs Hb Hdup Hov.
  assert (Hr : record_break db request req
               = (db, inr (OverlapWarning "Break recorded with overlap warning"
                             (check_overlapping_breaks
                                (breaks session ++ [break_entry])).2 true))).
  { unfold record_break. rewrite Hs, Hb, Hdup.
    rewrite (check_overlapping_breaks_pair (breaks session ++ [break_entry])).
    by rewrite Hov. }
  split; [exact Hr|]. by rewrite Hr.
Qed.

(** C8.  Constructing a break entry with both timestamps fails exactly when
    the end is not after the start, and succeeds, keeping the timestamps,
    when it is; at the endpoint such a submission ends in the validation
    error with the store untouched, before the duplicate check, the overlap
    detector and the merger. *)
Theorem break_entry_rejected_iff_end_not_after_start (bt : BreakType)
    (s e : Py.datetime) (d : option Z) (tz : option string) :
  ((exists err, BreakEntry_new bt (Some s) (Some e) d tz = inl err)
   <-> Py.le e s) /\
  (Py.lt s e ->
   exists b, BreakEntry_new bt (Some s) (Some e) d tz = inr b /\
             break_type b = bt /\ start_time b = Some s /\
             end_time b = Some e /\ BreakEntry_ok b) /\
  (forall (db : Store) (request : BreakRequest) (req : Request)
          (session : TimeEntry),
     get_current_session db (rq_emp_id request) = Some session ->
     start_utc request (user_tz session) = Some s ->
     end_utc request (user_tz session) = Some e ->
     Py.le e s ->
     record_break db request req
     = (db, inl (Py.ValidationError "End time must be after start time"))).
Proof.
  split.
  { rewrite BreakEntry_new_timed, <- leb_le.
    destruct (Py.leb e s); split; try done; [by eexists | by intros [? ?]]. }
  split.
  { intros Hlt. rewrite BreakEntry_new_timed.
    apply leb_gt in Hlt as Hleb. rewrite Hleb.
    eexists. repeat split. by cbn. }
  intros db request req session Hs Hst Hen Hle.
  unfold record_break. rewrite Hs. unfold make_break_entry.
  rewrite Hst, Hen, BreakEntry_new_timed.
  apply leb_le in Hle. by rewrite Hle.
Qed.

Lemma make_break_entry_type (request : BreakRequest) (tz : string)
    (entry : BreakEntry) :
  make_break_entry request tz = inr entry ->
  break_type entry = rq_break_type request.
Proof.
  unfold make_break_entry, BreakEntry_new.
  destruct (validate_end_time _ _); [done|]. by intros [= <-].
Qed.

(** A break that passes the duplicate check is appended by the merger. *)
Lemma merge_break_not_recorded (session : TimeEntry) (entry : BreakEntry) :
  already_recorded entry session = false ->
  merge_break (breaks session) entry = breaks session ++ [entry].
Proof.
  unfold already_recorded. intros Hdup.
  apply andb_false_iff in Hdup as [Hbio|Hin].
  - apply negb_false_iff, is_bio in Hbio. by apply merge_break_bio.
  - apply bool_decide_eq_false in Hin. apply merge_break_append.
    apply Forall_forall. intros x Hx Heq. apply Hin.
    rewrite <- Heq. apply list_elem_of_In, in_map, list_elem_of_In, Hx.
Qed.

(** C9, amended.  A Break1 or Break2 submitted when the day's session
    already holds an entry of that kind is rejected with the store
    untouched: with HTTP 400 when the entry passes construction, with the
    construction's validation error otherwise.  Whenever the endpoint does
    change the store, the new entry is appended to the break list, so the
    merger's replace rule is never exercised; a Bio submission always
    passes the duplicate check. *)
Theorem duplicate_mandatory_break_rejected (db : Store)
    (request : BreakRequest) (req : Request) (session : TimeEntry) :
  get_current_session db (rq_emp_id request) = Some session ->
  rq_break_type request <> BIO ->
  rq_break_type request ∈ map break_type (breaks session) ->
  record_break db request req
  = (db,
     inl match make_break_entry request (user_tz session) with
         | inr _ =>
             Py.HTTPException 400
               (BreakType_value (rq_break_type request)
                +:+ " already recorded for today")
         | inl err => err
         end) /\
  (forall db0 request0 req0 db' response,
     record_break db0 request0 req0 = (db', inr response) ->
     db' = db0 \/
     exists session0 entry s',
       get_current_session db0 (rq_emp_id request0) = Some session0 /\
       make_break_entry request0 (user_tz session0) = inr entry /\
       db' = <[(rq_emp_id request0, current_date) := s']> db0 /\
       merge_break (breaks session0) entry = breaks session0 ++ [entry] /\
       breaks s' = breaks session0 ++ [entry]) /\
  (forall session0 entry,
     break_type entry = BIO -> already_recorded entry session0 = false).
Proof.
  intros Hs Hkind Hin. split; [|split].
  - unfold record_break. rewrite Hs.
    destruct (make_break_entry request (user_tz session)) as [err|entry] eqn:E;
      [done|].
    pose proof (make_break_entry_type _ _ _ E) as Ht.
    unfold already_recorded. rewrite Ht.
    rewrite bool_decide_eq_true_2 by done.
    by destruct (rq_break_type request).
  - clear. intros db0 request0 req0 db' response. unfold record_break.
    destruct (get_current_session db0 (rq_emp_id request0))
      as [session0|] eqn:Hs; [|done].
    destruct (make_break_entry request0 (user_tz session0))
      as [err|entry] eqn:E; [done|].
    destruct (already_recorded entry session0) eqn:Hdup; [done|].
    rewrite (check_overlapping_breaks_pair (breaks session0 ++ [entry])).
    destruct (check_overlapping_breaks (breaks session0 ++ [entry])).1.
    { intros [= <- _]. by left. }
    destruct (create_or_update_session_break db0 (rq_emp_id request0)
                (Some req0) session0 entry Hs) as (s' & Hc & Hb & _).
    rewrite Hc. intros [= <- _]. right.
    pose proof (merge_break_not_recorded _ _ Hdup) as Hm.
    exists session0, entry, s'. repeat split; try done. by rewrite Hb.
  - intros session0 entry Hb. unfold already_recorded. by rewrite Hb.
Qed.

End Endpoint.

Section EndpointExamples.
Import SessionManager Tracking TimeCalculator Examples.

Lemma merger_break_rule_witness :
  TimeEntryRepository.get_time_entry db800 "Emp800" 739486 = Some emp800 /\
  (count_kind BREAK1 (breaks emp800) <= 1)%nat /\
  (count_kind BREAK1
     (merge_break (breaks emp800) (duration_only BREAK1 20)) <= 1)%nat /\
  merge_break (breaks emp800) (duration_only BREAK1 20)
  = [timed_break BIO (at_ 739486 10 0 0) (at_ 739486 10 30 0) 30;
     duration_only BREAK1 20].
Proof.
  assert (Hget : TimeEntryRepository.get_time_entry db800 "Emp800" 739486
                 = Some emp800) by reflexivity.
  assert (Hc : (count_kind BREAK1 (breaks emp800) <= 1)%nat)
    by (vm_compute; lia).
  pose proof (@merger_break_rule collaborators db800 "Emp800" (Some tt)
                emp800 (duration_only BREAK1 20) Hget)
    as (_ & _ & Hrep & _ & H1 & _).
  split; [exact Hget|]. split; [exact Hc|]. split; [exact (H1 Hc)|].
  apply (Hrep ltac:(discriminate)
           [timed_break BIO (at_ 739486 10 0 0) (at_ 739486 10 30 0) 30]
           (duration_only BREAK1 30) []); [reflexivity|reflexivity|].
  repeat constructor. discriminate.
Defined.

Lemma record_break_overlap_not_recorded_witness :
  @record_break collaborators db800 bio_overlapping tt
  = (db800, inr (OverlapWarning "Break recorded with overlap warning"
                   (Some "bio(1) overlaps bio(3) for 15 min") true)) /\
  @get_current_session collaborators
    (@record_break collaborators db800 bio_overlapping tt).1 "Emp800"
  = Some emp800.
Proof.
  apply (@record_break_overlap_not_recorded collaborators db800
           bio_overlapping tt emp800
           (timed_break BIO (at_ 739486 10 15 0) (at_ 739486 10 45 0) 30));
    reflexivity.
Defined.

Lemma break_entry_rejected_iff_end_not_after_start_witness :
  Py.le (at_ 739486 10 0 0) (at_ 739486 10 30 0) /\
  (exists err,
     BreakEntry_new BREAK1 (Some (at_ 739486 10 30 0))
       (Some (at_ 739486 10 0 0)) None (Some "UTC") = inl err) /\
  @record_break collaborators db800 break1_reversed tt
  = (db800, inl (Py.ValidationError "End time must be after start time")).
Proof.
  assert (Hle : Py.le (at_ 739486 10 0 0) (at_ 739486 10 30 0))
    by (vm_compute; discriminate).
  pose proof (@break_entry_rejected_iff_end_not_after_start collaborators
                BREAK1 (at_ 739486 10 30 0) (at_ 739486 10 0 0) None
                (Some "UTC")) as (Hiff & _ & Hrec).
  split; [exact Hle|]. split; [by apply Hiff|].
  apply (Hrec db800 break1_reversed tt emp800); try reflexivity. exact Hle.
Defined.

(** C9, the claim as stated fails: a second Break1 whose end is before its
    start is rejected with the validation error, not with HTTP 400. *)
Lemma duplicate_break1_reversed_counterexample :
  @get_current_session collaborators db800 "Emp800" = Some emp800 /\
  rq_break_type break1_reversed = BREAK1 /\
  BREAK1 ∈ map break_type (breaks emp800) /\
  @record_break collaborators db800 break1_reversed tt
  = (db800, inl (Py.ValidationError "End time must be after start time")) /\
  forall detail,
    (@record_break collaborators db800 break1_reversed tt).2
    <> inl (Py.HTTPException 400 detail).
Proof.
  split; [reflexivity|]. split; [reflexivity|].
  split; [cbn; set_solver|].
  assert (Hr : @record_break collaborators db800 break1_reversed tt
               = (db800, inl (Py.ValidationError
                                "End time must be after start time")))
    by reflexivity.
  split; [exact Hr|]. intros detail. rewrite Hr. discriminate.
Qed.

Lemma duplicate_mandatory_break_rejected_witness :
  @get_current_session collaborators db800 "Emp800" = Some emp800 /\
  BREAK1 ∈ map break_type (breaks emp800) /\
  @record_break collaborators db800 break1_again tt
  = (db800, inl (Py.HTTPException 400 "break1 already recorded for today")).
Proof.
  assert (Hin : BREAK1 ∈ map break_type (breaks emp800))
    by (cbn; set_solver).
  split; [reflexivity|]. split; [exact Hin|].
  apply (@duplicate_mandatory_break_rejected collaborators db800
           break1_again tt emp800); [reflexivity|discriminate|exact Hin].
Defined.

End EndpointExamples.

(** ** The overlap detector *)

Section Detector.
Import TimeCalculator.

Lemma timed_at_head (n : nat) (b : BreakEntry) (bs : list BreakEntry)
    (t : Timed) :
  timed_at n (b :: bs) 0 t <-> timed_of (n, b) = Some t.
Proof.
  unfold timed_at, timed_of. destruct t as [i br s e]. cbn.
  rewrite Nat.add_0_r. split.
  - intros ([= ->] & -> & -> & ->). reflexivity.
  - destruct (start_time b) as [s'|] eqn:Hs; [|done].
    destruct (end_time b) as [e'|] eqn:He; [|done].
    intros [= <- <- <- <-]. done.
Qed.

Lemma timed_at_tail (n : nat) (b : BreakEntry) (bs : list BreakEntry)
    (i : nat) (t : Timed) :
  timed_at n (b :: bs) (S i) t <-> timed_at (S n) bs i t.
Proof. unfold timed_at. cbn. by rewrite Nat.add_succ_r. Qed.

Lemma timed_from_cons (n : nat) (b : BreakEntry) (bs : list BreakEntry) :
  omap timed_of (Py.enumerate_from n (b :: bs)) =
  match timed_of (n, b) with
  | Some t => t :: omap timed_of (Py.enumerate_from (S n) bs)
  | None => omap timed_of (Py.enumerate_from (S n) bs)
  end.
Proof. reflexivity. Qed.

Lemma elem_of_timed_from (n : nat) (bs : list BreakEntry) (t : Timed) :
  t ∈ omap timed_of (Py.enumerate_from n bs) <-> exists i, timed_at n bs i t.
Proof.
  revert n. induction bs as [|b bs IH]; intros n.
  - cbn. split; [by intros ?%elem_of_nil|].
    by intros (i & Hi & _).
  - rewrite timed_from_cons. split.
    + intros Ht.
      destruct (timed_of (n, b)) as [t0|] eqn:E.
      * apply elem_of_cons in Ht as [->|Ht].
        -- exists 0%nat. by apply timed_at_head.
        -- apply IH in Ht as (i & Hi). exists (S i). by apply timed_at_tail.
      * apply IH in Ht as (i & Hi). exists (S i). by apply timed_at_tail.
    + intros ([|i] & Hi).
      * apply timed_at_head in Hi. rewrite Hi. apply elem_of_cons. by left.
      * apply timed_at_tail in Hi.
        assert (Ht : t ∈ omap timed_of (Py.enumerate_from (S n) bs))
          by (apply IH; by exists i).
        destruct (timed_of (n, b)); [apply elem_of_cons; by right|done].
Qed.

Lemma elem_of_inner_loop (t1 : Timed) (later : list Timed) (o : Overlap) :
  o ∈ inner_loop t1 later <->
  exists t2, t2 ∈ later /\ disjoint t1 t2 = false /\ o = overlap_of t1 t2.
Proof.
  unfold inner_loop. rewrite list_elem_of_omap. split.
  - intros (t2 & Hin & Hf). exists t2.
    destruct (disjoint t1 t2); [done|]. by injection Hf as <-.
  - intros (t2 & Hin & Hd & ->). exists t2. by rewrite Hd.
Qed.

(** The reported pairs are the pairs of timed entries, in sequence order,
    that the disjointness test does not skip. *)
Lemma elem_of_outer_loop (n : nat) (bs : list BreakEntry) (o : Overlap) :
  o ∈ outer_loop (omap timed_of (Py.enumerate_from n bs)) <->
  exists i j t1 t2,
    (i < j)%nat /\ timed_at n bs i t1 /\ timed_at n bs j t2 /\
    disjoint t1 t2 = false /\ o = overlap_of t1 t2.
Proof.
  revert n. induction bs as [|b bs IH]; intros n.
  - cbn. split; [by intros ?%elem_of_nil|].
    by intros (i & j & t1 & t2 & _ & (Hi & _) & _).
  - rewrite timed_from_cons. split.
    + intros Ho.
      assert (Htail : o ∈ outer_loop (omap timed_of (Py.enumerate_from (S n) bs))
                      -> exists i j t1 t2,
                           (i < j)%nat /\ timed_at n (b :: bs) i t1 /\
                           timed_at n (b :: bs) j t2 /\
                           disjoint t1 t2 = false /\ o = overlap_of t1 t2).
      { intros (i & j & t1 & t2 & Hij & H1 & H2 & Hd & ->)%IH.
        exists (S i), (S j), t1, t2.
        rewrite !timed_at_tail. split; [lia|]. by repeat (split; [done|]). }
      destruct (timed_of (n, b)) as [t0|] eqn:E; [|by apply Htail].
      cbn [outer_loop] in Ho. apply elem_of_app in Ho as [Ho|Ho];
        [|by apply Htail].
      apply elem_of_inner_loop in Ho as (t2 & Hin & Hd & ->).
      apply elem_of_timed_from in Hin as (j & Hj).
      exists 0%nat, (S j), t0, t2.
      rewrite timed_at_head, timed_at_tail. split; [lia|]. by repeat (split; [done|]).
    + intros (i & j & t1 & t2 & Hij & H1 & H2 & Hd & ->).
      destruct j as [|j]; [lia|]. apply timed_at_tail in H2.
      destruct i as [|i].
      * apply timed_at_head in H1. rewrite H1. cbn [outer_loop].
        apply elem_of_app. left. apply elem_of_inner_loop.
        exists t2. split; [|done].
        apply elem_of_timed_from. by exists j.
      * apply timed_at_tail in H1.
        assert (Ho : overlap_of t1 t2
                     ∈ outer_loop (omap timed_of (Py.enumerate_from (S n) bs))).
        { apply IH. exists i, j, t1, t2. split; [lia|]. by repeat (split; [done|]). }
        destruct (timed_of (n, b)); [|done].
        cbn [outer_loop]. apply elem_of_app. by right.
Qed.

Lemma disjoint_false (t1 t2 : Timed) :
  disjoint t1 t2 = false <->
  ~ (Py.le (t_end t1) (t_start t2) \/ Py.le (t_end t2) (t_start t1)).
Proof.
  unfold disjoint. rewrite orb_false_iff, !leb_gt.
  unfold Py.le, Py.lt. lia.
Qed.

(** Intervals that are well formed and not disjoint share a span of
    positive length. *)
Lemma overlap_width_positive (s1 e1 s2 e2 : Py.datetime) :
  Py.lt s1 e1 -> Py.lt s2 e2 ->
  ~ (Py.le e1 s2 \/ Py.le e2 s1) ->
  0 < Py.to_micro (Py.min e1 e2) - Py.to_micro (Py.max s1 s2).
Proof.
  unfold Py.lt, Py.le, Py.min, Py.max. intros H1 H2 Hnd.
  destruct (Z.ltb_spec (Py.to_micro e2) (Py.to_micro e1));
    destruct (Z.ltb_spec (Py.to_micro s1) (Py.to_micro s2)); lia.
Qed.

Lemma minutes_positive (td : Z) :
  0 < td -> (0 < Py.total_seconds td / 60)%Q.
Proof.
  intros Htd. unfold Py.total_seconds, Qdiv.
  change (/ 60)%Q with (1 # 60)%Q. unfold Qlt. cbn. lia.
Qed.

(** C6.  For a list of constructed break entries, the detector reports
    exactly the pairs i < j of timed entries (start and end both present)
    that are not disjoint (neither end_i <= start_j nor end_j <= start_i);
    each report carries the two kinds, the two positions and the width
    min(end_i, end_j) - max(start_i, start_j) in minutes, which is
    strictly positive; the message prints the kinds with the positions
    counted from 1; and the result joins the messages of the reports. *)
Theorem overlap_detector_reports (bs : list BreakEntry) :
  Forall BreakEntry_ok bs ->
  (forall o,
     o ∈ overlaps bs <->
     exists i j b1 b2 s1 e1 s2 e2,
       (i < j)%nat /\ bs !! i = Some b1 /\ bs !! j = Some b2 /\
       start_time b1 = Some s1 /\ end_time b1 = Some e1 /\
       start_time b2 = Some s2 /\ end_time b2 = Some e2 /\
       ~ (Py.le e1 s2 \/ Py.le e2 s1) /\
       o = {| ov_idx1 := i; ov_type1 := break_type b1;
              ov_idx2 := j; ov_type2 := break_type b2;
              ov_min :=
                Py.total_seconds
                  (Py.to_micro (Py.min e1 e2) - Py.to_micro (Py.max s1 s2))
                / 60 |}) /\
  (forall o, o ∈ overlaps bs -> (0 < ov_min o)%Q) /\
  (forall o,
     overlap_message o =
     BreakType_value (ov_type1 o) +:+ "("
     +:+ Py.str_Z (Z.of_nat (ov_idx1 o) + 1) +:+ ") overlaps "
     +:+ BreakType_value (ov_type2 o) +:+ "("
     +:+ Py.str_Z (Z.of_nat (ov_idx2 o) + 1) +:+ ") for "
     +:+ Py.format_0f (ov_min o) +:+ " min") /\
  check_overlapping_breaks bs =
  match overlaps bs with
  | [] => (false, None)
  | _ :: _ => (true, Some (Py.join "; " (map overlap_message (overlaps bs))))
  end.
Proof.
  intros Hok.
  assert (Hiff : forall o,
     o ∈ overlaps bs <->
     exists i j b1 b2 s1 e1 s2 e2,
       (i < j)%nat /\ bs !! i = Some b1 /\ bs !! j = Some b2 /\
       start_time b1 = Some s1 /\ end_time b1 = Some e1 /\
       start_time b2 = Some s2 /\ end_time b2 = Some e2 /\
       ~ (Py.le e1 s2 \/ Py.le e2 s1) /\
       o = {| ov_idx1 := i; ov_type1 := break_type b1;
              ov_idx2 := j; ov_type2 := break_type b2;
              ov_min :=
                Py.total_seconds
                  (Py.to_micro (Py.min e1 e2) - Py.to_micro (Py.max s1 s2))
                / 60 |}).
  { intros o. unfold overlaps, timed, Py.enumerate.
    rewrite elem_of_outer_loop. split.
    - intros (i & j & [i1 b1 s1 e1] & [i2 b2 s2 e2] & Hij & H1 & H2 & Hd & ->).
      destruct H1 as (Hb1 & Hs1 & He1 & Hi1), H2 as (Hb2 & Hs2 & He2 & Hi2).
      cbn in *. subst i1 i2. apply disjoint_false in Hd. cbn in Hd.
      exists i, j, b1, b2, s1, e1, s2, e2. by repeat (split; [done|]).
    - intros (i & j & b1 & b2 & s1 & e1 & s2 & e2
              & Hij & Hb1 & Hb2 & Hs1 & He1 & Hs2 & He2 & Hd & ->).
      exists i, j, (mk_Timed i b1 s1 e1), (mk_Timed j b2 s2 e2).
      split; [done|]. split; [done|]. split; [done|].
      split; [by apply disjoint_false|done]. }
  split; [exact Hiff|]. split; [|split].
  - intros o (i & j & b1 & b2 & s1 & e1 & s2 & e2
              & Hij & Hb1 & Hb2 & Hs1 & He1 & Hs2 & He2 & Hd & ->)%Hiff.
    cbn [ov_min]. apply minutes_positive, overlap_width_positive; [| |done].
    + pose proof (Forall_lookup_1 _ _ _ _ Hok Hb1) as Hb.
      unfold BreakEntry_ok in Hb. by rewrite Hs1, He1 in Hb.
    + pose proof (Forall_lookup_1 _ _ _ _ Hok Hb2) as Hb.
      unfold BreakEntry_ok in Hb. by rewrite Hs2, He2 in Hb.
  - reflexivity.
  - unfold check_overlapping_breaks. by destruct (overlaps bs).
Qed.

Lemma overlap_detector_reports_witness :
  Forall BreakEntry_ok Examples.overlapping_breaks /\
  (forall o, o ∈ overlaps Examples.overlapping_breaks -> (0 < ov_min o)%Q) /\
  check_overlapping_breaks Examples.overlapping_breaks
  = (true, Some "bio(1) overlaps bio(3) for 15 min").
Proof.
  assert (Hok : Forall BreakEntry_ok Examples.overlapping_breaks).
  { repeat constructor. all: vm_compute; reflexivity. }
  pose proof (overlap_detector_reports Examples.overlapping_breaks Hok)
    as (_ & Hpos & _ & Hres).
  split; [exact Hok|]. split; [exact Hpos|]. rewrite Hres. reflexivity.
Defined.

End Detector.

(** * Further properties of the code *)

(** ** The calculator: results on every session *)

Section CalculatorMore.
Import TimeCalculator.

Lemma inject_Z_div60_le (x y : Z) :
  x <= y -> (inject_Z x / 60 <= inject_Z y / 60)%Q.
Proof.
  intros Hxy. unfold Qdiv. change (/ 60)%Q with (1 # 60)%Q.
  rewrite Zle_Qle in Hxy. lra.
Qed.

Lemma partial_day_nonneg (t : Q) (a : Acc) : (0 <= (partial_day t a).1.1)%Q.
Proof. rewrite partial_day_final. apply qmax_lower. Qed.

(** X1.  The hours returned are never negative, on any session; when there is a
    login, the detail [final_work_hours] is the returned value. *)
Theorem final_hours_never_negative (te : TimeEntry) :
  (0 <= (calculate_work_hours te).1.1)%Q /\
  (forall d, (calculate_work_hours te).1.2 = Computed d ->
             d_final_work_hours d = (calculate_work_hours te).1.1 /\
             d_total_break_minutes d = total_break_min (accumulate (breaks te))).
Proof.
  destruct (login_time te) as [login|] eqn:Hlogin.
  - rewrite (calculate_work_hours_login te login Hlogin). cbn [fst snd].
    split.
    + destruct (full_day_test _); [apply full_day_bounds|apply partial_day_nonneg].
    + by intros d [= <-].
  - unfold calculate_work_hours. rewrite Hlogin. cbn. split; [lra|done].
Qed.

Lemma _adj_value (actual : Z) (label : string) (adj : gmap string Z) :
  (_adj actual label adj).1 = slot_adjustment actual.
Proof.
  unfold _adj, slot_adjustment, MANDATORY_BREAK_MINUTES.
  destruct (Z.ltb_spec 30 actual), (Z.ltb_spec 0 actual),
    (Z.ltb_spec actual 30); cbn; lia.
Qed.

Lemma full_day_value (a : Acc) :
  (full_day a).1.1 =
  Py.qmax 0 (Py.qmin 9 (9 - inject_Z (excess (bio_min a)) / 60
                        + inject_Z (slot_adjustment (b1_min a)
                                    + slot_adjustment (b2_min a)) / 60)) /\
  (full_day a).1.2 = excess (bio_min a).
Proof.
  unfold full_day.
  pose proof (_adj_value (b1_min a) "break1" ∅) as H1.
  destruct (_adj (b1_min a) "break1" ∅) as [r1 adj1]. cbn [fst] in H1.
  pose proof (_adj_value (b2_min a) "break2" adj1) as H2.
  destruct (_adj (b2_min a) "break2" adj1) as [r2 adj2]. cbn [fst] in H2.
  subst r1 r2. unfold excess, MAX_BIO_BREAK_MINUTES.
  destruct (Z.ltb_spec 30 (bio_min a)) as [Hb|Hb]; cbn [fst snd].
  - rewrite Z.max_r by lia. done.
  - rewrite Z.max_l by lia. done.
Qed.

Lemma partial_day_penalty (t : Q) (a : Acc) :
  (partial_day t a).1.2
  = excess (b1_min a) + excess (b2_min a) + excess (bio_min a).
Proof.
  unfold partial_day, excess, MANDATORY_BREAK_MINUTES, MAX_BIO_BREAK_MINUTES.
  destruct (Z.ltb_spec 30 (b1_min a)), (Z.ltb_spec 30 (b2_min a)),
    (Z.ltb_spec 30 (bio_min a)); cbn [fst snd]; lia.
Qed.

Lemma excess_nonneg (x : Z) : 0 <= excess x.
Proof. unfold excess. lia. Qed.

Lemma excess_pos (x : Z) : excess x <> 0 <-> 30 < x.
Proof. unfold excess. lia. Qed.

(** The clamp [max(0, min(9, x))], by cases. *)
Lemma clamp_cases (x : Q) :
  ((9 <= x)%Q -> (Py.qmax 0 (Py.qmin 9 x) == 9)%Q) /\
  ((0 <= x <= 9)%Q -> (Py.qmax 0 (Py.qmin 9 x) == x)%Q) /\
  ((x <= 0)%Q -> (Py.qmax 0 (Py.qmin 9 x) == 0)%Q).
Proof.
  unfold Py.qmax, Py.qmin.
  destruct (Py.Qltb x 9) eqn:E1.
  - apply Qltb_true in E1. destruct (Py.Qltb 0 x) eqn:E2.
    + apply Qltb_true in E2. repeat split; intros; lra.
    + apply Qltb_false in E2. repeat split; intros; lra.
  - apply Qltb_false in E1.
    assert (E2 : Py.Qltb 0 9 = true) by reflexivity. rewrite E2.
    repeat split; intros; lra.
Qed.

(** X2.  Full day, closed form.  With net = adjustment(Break1) +
    adjustment(Break2) - excess(Bio), where a taken mandatory break of x
    minutes adjusts by 30 - x and an untaken one by 0: the hours are 9 when
    net >= 0 (unused minutes never raise the result above 9), 9 + net/60 when
    -540 <= net <= 0, and 0 when net <= -540. *)
Theorem full_day_closed_form (te : TimeEntry) (login : Py.datetime) :
  login_time te = Some login ->
  full_day_test
    (logged_hours (effective_logout (logout_time te) login) login) = true ->
  let a := accumulate (breaks te) in
  let net := slot_adjustment (b1_min a) + slot_adjustment (b2_min a)
             - excess (bio_min a) in
  let hours := (calculate_work_hours te).1.1 in
  (0 <= net -> (hours == 9)%Q) /\
  (-540 <= net <= 0 -> (hours == 9 + inject_Z net / 60)%Q) /\
  (net <= -540 -> (hours == 0)%Q).
Proof.
  intros Hlogin Hfull. cbv zeta.
  rewrite (calculate_work_hours_login te login Hlogin). cbn [fst snd].
  rewrite Hfull. set (a := accumulate (breaks te)).
  destruct (full_day_value a) as [-> _].
  set (net := slot_adjustment (b1_min a) + slot_adjustment (b2_min a)
              - excess (bio_min a)).
  set (x := (9 - inject_Z (excess (bio_min a)) / 60
             + inject_Z (slot_adjustment (b1_min a)
                         + slot_adjustment (b2_min a)) / 60)%Q).
  assert (Hx : (x == 9 + inject_Z net / 60)%Q).
  { unfold x, net. unfold Z.sub. rewrite !inject_Z_plus, inject_Z_opp.
    unfold Qdiv. change (/ 60)%Q with (1 # 60)%Q. lra. }
  destruct (clamp_cases x) as (Hhi & Hmid & Hlo).
  assert (Hn : forall z : Z, (inject_Z z / 60 == inject_Z z * (1 # 60))%Q)
    by (intros z; reflexivity).
  split; [|split]; intros Hnet.
  - rewrite Hhi; [reflexivity|]. rewrite Hx, Hn.
    apply inject_Z_nonneg in Hnet. lra.
  - rewrite Hmid; [exact Hx|]. rewrite Hx, Hn.
    destruct Hnet as [Hl Hu]. rewrite Zle_Qle in Hl, Hu.
    change (inject_Z (-540)) with (-540)%Q in Hl.
    change (inject_Z 0) with 0%Q in Hu. lra.
  - rewrite Hlo; [reflexivity|]. rewrite Hx, Hn.
    rewrite Zle_Qle in Hnet. change (inject_Z (-540)) with (-540)%Q in Hnet.
    lra.
Qed.

Lemma full_day_closed_form_witness :
  ((calculate_work_hours Examples.emp239).1.1 == 9 + inject_Z (-15) / 60)%Q.
Proof.
  pose proof (full_day_closed_form Examples.emp239 (Examples.at_ 739486 9 0 0)
                eq_refl eq_refl) as (_ & Hmid & _).
  apply Hmid. vm_compute. split; discriminate.
Defined.

Lemma string_app_empty_r (s : string) : s +:+ "" = s.
Proof.
  induction s as [|c s IH]; [done|].
  change (String c (s +:+ "") = String c s). by rewrite IH.
Qed.

(** X4.  The scenario label.  "Emp exceeds break" replaces the logout-status label
    exactly when, on a full day, the Bio minutes exceed 30, or, on a partial
    day, the Break1, Break2 or Bio minutes exceed 30; the suffix
    " with overlapping breaks" is added exactly when the detector reports an
    overlap. *)
Theorem scenario_label (te : TimeEntry) (login : Py.datetime) :
  login_time te = Some login ->
  let a := accumulate (breaks te) in
  let full :=
    full_day_test
      (logged_hours (effective_logout (logout_time te) login) login) in
  let exceeds :=
    if full then 30 <? bio_min a
    else (30 <? b1_min a) || (30 <? b2_min a) || (30 <? bio_min a) in
  (calculate_work_hours te).2 =
  (if exceeds then "Emp exceeds break"
   else match logout_time te with
        | Some _ => "Calculation"
        | None => "Emp forgot to logout"
        end)
  +:+ (if (check_overlapping_breaks (breaks te)).1
       then " with overlapping breaks" else "").
Proof.
  intros Hlogin. cbv zeta.
  rewrite (calculate_work_hours_login te login Hlogin). cbn [fst snd].
  set (a := accumulate (breaks te)).
  set (full := full_day_test
                 (logged_hours (effective_logout (logout_time te) login) login)).
  set (exceeds := if full then 30 <? bio_min a
                  else (30 <? b1_min a) || (30 <? b2_min a) || (30 <? bio_min a)).
  assert (Hov : has_overlaps (handle_overlapping_breaks (breaks te)).2
                = (check_overlapping_breaks (breaks te)).1).
  { unfold handle_overlapping_breaks.
    by destruct (check_overlapping_breaks (breaks te)). }
  rewrite Hov.
  assert (Hex : bool_decide
                  ((if full then full_day a
                    else partial_day
                           (logged_hours
                              (effective_logout (logout_time te) login) login)
                           a).1.2 ≠ 0) = exceeds).
  { unfold exceeds. destruct full.
    - destruct (full_day_value a) as [_ ->].
      pose proof (excess_pos (bio_min a)).
      destruct (Z.ltb_spec 30 (bio_min a));
        [apply bool_decide_eq_true_2 | apply bool_decide_eq_false_2]; lia.
    - rewrite partial_day_penalty.
      pose proof (excess_pos (b1_min a)). pose proof (excess_pos (b2_min a)).
      pose proof (excess_pos (bio_min a)).
      pose proof (excess_nonneg (b1_min a)).
      pose proof (excess_nonneg (b2_min a)).
      pose proof (excess_nonneg (bio_min a)).
      destruct (Z.ltb_spec 30 (b1_min a)), (Z.ltb_spec 30 (b2_min a)),
        (Z.ltb_spec 30 (bio_min a)); cbn [orb];
        (apply bool_decide_eq_true_2 || apply bool_decide_eq_false_2); lia. }
  rewrite Hex.
  destruct (check_overlapping_breaks (breaks te)).1; [reflexivity|].
  by rewrite string_app_empty_r.
Qed.

Lemma scenario_label_witness :
  (calculate_work_hours Examples.late_login).2 = "Emp exceeds break".
Proof.
  apply (scenario_label Examples.late_login (Examples.at_ 739486 19 0 0)).
  reflexivity.
Defined.



(** X5.  A logout that is not after the login (explicit or defaulted; nothing in
    the code forbids it) gives a partial day and, when the break total is
    not negative, exactly 0 hours. *)
Theorem logout_not_after_login_zero_hours (te : TimeEntry)
    (login : Py.datetime) :
  login_time te = Some login ->
  Py.le (effective_logout (logout_time te) login) login ->
  0 <= total_break_min (accumulate (breaks te)) ->
  ((calculate_work_hours te).1.1 == 0)%Q /\
  exists d, (calculate_work_hours te).1.2 = Computed d /\
            d_is_full_workday d = false /\
            (d_total_logged_hours d <= 0)%Q.
Proof.
  intros Hlogin Hle Hbreaks.
  rewrite (calculate_work_hours_login te login Hlogin). cbn [fst snd].
  pose proof (logged_hours_nonpos _ _ Hle) as Ht.
  rewrite (full_day_test_nonpos _ Ht). split.
  - rewrite partial_day_final. apply qmax_zero_of_nonpos.
    pose proof (partial_day_penalty_nonneg
                  (logged_hours (effective_logout (logout_time te) login) login)
                  (accumulate (breaks te))) as Hpen.
    apply inject_Z_nonneg in Hpen. apply inject_Z_nonneg in Hbreaks.
    unfold Qdiv. change (/ 60)%Q with (1 # 60)%Q. lra.
  - eexists. split; [reflexivity|]. by cbn.
Qed.

Lemma logout_not_after_login_zero_hours_witness :
  let te := Examples.session "Emp702" (Some (Examples.at_ 739486 9 0 0))
              (Some (Examples.at_ 739486 8 0 0))
              [Examples.duration_only BREAK1 30] in
  ((calculate_work_hours te).1.1 == 0)%Q.
Proof.
  intros te.
  apply (logout_not_after_login_zero_hours te (Examples.at_ 739486 9 0 0)).
  - reflexivity.
  - vm_compute. discriminate.
  - vm_compute. discriminate.
Defined.

(** X6.  Without a logout the classification depends on the login's time of day
    alone: the day is a full workday exactly when the login is strictly
    between 08:30:00 and 09:30:00 (the microseconds play no part). *)
Theorem forgot_logout_full_day_window (te : TimeEntry) (login : Py.datetime) :
  login_time te = Some login ->
  logout_time te = None ->
  exists d, (calculate_work_hours te).1.2 = Computed d /\
            d_logout_time d = Py.replace_hms login 18 0 0 /\
            (d_is_full_workday d = true
             <-> 30600 < seconds_of_day login < 34200).
Proof.
  intros Hlogin Hlogout.
  rewrite (calculate_work_hours_login te login Hlogin). cbn [fst snd].
  rewrite Hlogout. eexists. split; [reflexivity|].
  cbn [d_logout_time d_is_full_workday]. split; [reflexivity|].
  rewrite full_day_test_spec, Qabs_Qlt_condition.
  unfold logged_hours, Py.total_seconds, Py.sub, effective_logout,
    Py.replace_hms, Py.to_micro, seconds_of_day, DEFAULT_LOGOUT_HOUR.
  cbn [Py.ordinal Py.hour Py.minute Py.second Py.microsecond].
  unfold Qlt, Qminus, Qplus, Qopp, Qdiv, Qmult, Qinv.
  cbn [Qnum Qden]. lia.
Qed.

Lemma forgot_logout_full_day_window_witness :
  let te := Examples.session "Emp564" (Some (Examples.at_ 739486 9 0 0)) None
              [Examples.duration_only BREAK1 40] in
  exists d, (calculate_work_hours te).1.2 = Computed d /\
            d_logout_time d = Py.replace_hms (Examples.at_ 739486 9 0 0) 18 0 0 /\
            (d_is_full_workday d = true
             <-> 30600 < seconds_of_day (Examples.at_ 739486 9 0 0) < 34200).
Proof.
  intros te.
  apply (forgot_logout_full_day_window te (Examples.at_ 739486 9 0 0));
    reflexivity.
Defined.

Lemma acc_step_view (a : Acc) (b b' : BreakEntry) :
  calc_view b = calc_view b' -> acc_step a b = acc_step a b'.
Proof.
  unfold calc_view, acc_step. intros [= Ht Hd]. by rewrite Ht, Hd.
Qed.

Lemma accumulate_view (bs bs' : list BreakEntry) :
  map calc_view bs = map calc_view bs' -> accumulate bs = accumulate bs'.
Proof.
  unfold accumulate. generalize acc0. revert bs'.
  induction bs as [|b bs IH]; intros [|b' bs'] a Hv; try done.
  cbn [map] in Hv.
  assert (Hb : calc_view b = calc_view b') by congruence.
  assert (Hbs : map calc_view bs = map calc_view bs') by congruence.
  cbn [foldl].
  rewrite (acc_step_view a b b' Hb). by apply IH.
Qed.

(** X7.  The hours depend on the breaks only through their kinds and minutes:
    two sessions with the same login and logout whose breaks agree on kind
    and duration get the same hours, break totals and adjustments, whatever
    the break timestamps are and whether or not they overlap. *)
Theorem hours_ignore_break_timestamps (te1 te2 : TimeEntry) :
  login_time te1 = login_time te2 ->
  logout_time te1 = logout_time te2 ->
  map calc_view (breaks te1) = map calc_view (breaks te2) ->
  (calculate_work_hours te1).1.1 = (calculate_work_hours te2).1.1 /\
  (forall d1 d2,
     (calculate_work_hours te1).1.2 = Computed d1 ->
     (calculate_work_hours te2).1.2 = Computed d2 ->
     d_total_break_minutes d1 = d_total_break_minutes d2 /\
     d_adjustments d1 = d_adjustments d2 /\
     d_mandatory_breaks d1 = d_mandatory_breaks d2 /\
     d_bio_breaks d1 = d_bio_breaks d2 /\
     d_is_full_workday d1 = d_is_full_workday d2).
Proof.
  intros Hlogin Hlogout Hview.
  apply accumulate_view in Hview.
  destruct (login_time te1) as [login|] eqn:H1.
  - symmetry in Hlogin.
    rewrite (calculate_work_hours_login te1 login H1),
      (calculate_work_hours_login te2 login Hlogin).
    cbn [fst snd]. rewrite <- Hlogout, <- Hview. split; [reflexivity|].
    by intros d1 d2 [= <-] [= <-].
  - symmetry in Hlogin. unfold calculate_work_hours. rewrite H1, Hlogin.
    split; [reflexivity|]. by intros d1 d2 [=].
Qed.

Lemma hours_ignore_break_timestamps_witness :
  let te1 := Examples.session "Emp703" (Some (Examples.at_ 739486 9 0 0))
               (Some (Examples.at_ 739486 18 0 0))
               [Examples.timed_break BIO (Examples.at_ 739486 10 0 0)
                  (Examples.at_ 739486 10 30 0) 30;
                Examples.timed_break BIO (Examples.at_ 739486 10 15 0)
                  (Examples.at_ 739486 10 45 0) 30] in
  let te2 := Examples.session "Emp703" (Some (Examples.at_ 739486 9 0 0))
               (Some (Examples.at_ 739486 18 0 0))
               [Examples.duration_only BIO 30; Examples.duration_only BIO 30] in
  (calculate_work_hours te1).1.1 = (calculate_work_hours te2).1.1.
Proof.
  intros te1 te2.
  apply (hours_ignore_break_timestamps te1 te2); reflexivity.
Defined.

Lemma sum_durations_cons (b : BreakEntry) (bs : list BreakEntry) :
  sum_durations (b :: bs) = duration_of b + sum_durations bs.
Proof. reflexivity. Qed.

Lemma foldl_acc_step_totals (bs : list BreakEntry) (a : Acc) :
  let r := foldl acc_step a bs in
  total_break_min r = total_break_min a + sum_durations bs /\
  bio_min r
  = bio_min a + sum_durations (filter (fun b => break_type b = BIO) bs) /\
  b1_min r = match last (filter (fun b => break_type b = BREAK1) bs) with
             | Some b => duration_of b
             | None => b1_min a
             end /\
  b2_min r = match last (filter (fun b => break_type b = BREAK2) bs) with
             | Some b => duration_of b
             | None => b2_min a
             end.
Proof.
  revert a. induction bs as [|b bs IH]; intros a; cbv zeta.
  - cbn. repeat split; lia.
  - cbn [foldl]. destruct (IH (acc_step a b)) as (Ht & Hbio & Hb1 & Hb2).
    rewrite Ht, Hbio, Hb1, Hb2. clear IH Ht Hbio Hb1 Hb2.
    rewrite !filter_cons. unfold acc_step.
    change (default 0 (duration_minutes b)) with (duration_of b).
    destruct (break_type b) eqn:Hk; cbn [total_break_min bio_min b1_min b2_min];
      repeat case_decide; try congruence;
      rewrite ?last_cons, ?sum_durations_cons;
      repeat match goal with
             | |- context [last (filter ?P bs)] => destruct (last (filter P bs))
             end;
      repeat split; lia.
Qed.

(** X8.  What the loop over the breaks accumulates: the total is the sum of all
    durations (an unset duration counts 0), the Bio minutes are the sum over
    the Bio entries, and for Break1 and Break2 the last entry of the kind
    wins (0 when there is none). *)
Theorem accumulate_totals (bs : list BreakEntry) :
  total_break_min (accumulate bs) = sum_durations bs /\
  bio_min (accumulate bs)
  = sum_durations (filter (fun b => break_type b = BIO) bs) /\
  b1_min (accumulate bs) = last_duration BREAK1 bs /\
  b2_min (accumulate bs) = last_duration BREAK2 bs.
Proof.
  destruct (foldl_acc_step_totals bs acc0) as (Ht & Hbio & Hb1 & Hb2).
  unfold accumulate, last_duration. rewrite Ht, Hbio, Hb1, Hb2.
  cbn [acc0 total_break_min bio_min b1_min b2_min]. repeat split; lia.
Qed.

Lemma str_Z_inj (a b : Z) : Py.str_Z a = Py.str_Z b -> a = b.
Proof.
  assert (Hparse : forall z,
             NilZero.int_of_string (Py.str_Z z) = Some (Z.to_int z)).
  { intros z. unfold Py.str_Z. apply NilZero.isi.
    - destruct z as [|p|p]; cbn; try discriminate.
      intros [= Hp]. by apply DecimalPos.Unsigned.to_uint_nonnil in Hp.
    - destruct z as [|p|p]; cbn; try discriminate.
      intros [= Hp]. by apply DecimalPos.Unsigned.to_uint_nonnil in Hp. }
  intros Heq. pose proof (Hparse a) as Ha. rewrite Heq, Hparse in Ha.
  injection Ha as Ha. rewrite <- (DecimalZ.of_to a), <- (DecimalZ.of_to b).
  by rewrite Ha.
Qed.

Lemma string_app_inj_l (p x y : string) : p +:+ x = p +:+ y -> x = y.
Proof.
  induction p as [|c p IH]; [done|].
  change (String c (p +:+ x) = String c (p +:+ y) -> x = y).
  intros [= Hp]. by apply IH.
Qed.

(** The invariant of the [bio_breaks] dict along the loop, for the Bio
    entries [bios] seen so far. *)
Lemma foldl_acc_step_bio (bs : list BreakEntry) (a : Acc)
    (bios : list BreakEntry) :
  size (bio_breaks a) = length bios ->
  (forall key, is_Some (bio_breaks a !! key) ->
     exists k, (k < length bios)%nat /\
               key = "bio_break_" +:+ Py.str_Z (Z.of_nat k + 1)) ->
  (forall k b, bios !! k = Some b ->
     bio_breaks a !! ("bio_break_" +:+ Py.str_Z (Z.of_nat k + 1))
     = Some (duration_of b)) ->
  let all := bios ++ filter (fun b => break_type b = BIO) bs in
  let m := bio_breaks (foldl acc_step a bs) in
  size m = length all /\
  (forall k b, all !! k = Some b ->
     m !! ("bio_break_" +:+ Py.str_Z (Z.of_nat k + 1)) = Some (duration_of b)).
Proof.
  revert a bios. induction bs as [|b bs IH]; intros a bios Hsize Hdom Hget.
  - cbn. rewrite app_nil_r. by split.
  - cbn [foldl]. rewrite filter_cons.
    destruct (decide (break_type b = BIO)) as [Hb|Hb].
    + assert (Hfresh : bio_breaks a
                       !! ("bio_break_"
                           +:+ Py.str_Z (Z.of_nat (size (bio_breaks a)) + 1))
                       = None).
      { apply eq_None_not_Some. intros (k & Hk & Hkey)%Hdom.
        apply string_app_inj_l, str_Z_inj in Hkey. lia. }
      specialize (IH (acc_step a b) (bios ++ [b])).
      rewrite <- app_assoc in IH. cbn [app] in IH. apply IH; clear IH.
      * unfold acc_step. rewrite Hb. cbn [bio_breaks].
        rewrite map_size_insert_None by done. rewrite length_app. cbn. lia.
      * unfold acc_step. rewrite Hb. cbn [bio_breaks]. intros key Hkey.
        rewrite length_app. cbn [length].
        destruct (decide (key = "bio_break_"
                                +:+ Py.str_Z (Z.of_nat (size (bio_breaks a)) + 1)))
          as [->|Hne].
        -- exists (length bios). rewrite Hsize. split; [lia|done].
        -- rewrite lookup_insert_ne in Hkey by done.
           apply Hdom in Hkey as (k & Hk & ->). exists k. split; [lia|done].
      * unfold acc_step. rewrite Hb. cbn [bio_breaks]. intros k b' Hk.
        destruct (decide (k = length bios)) as [->|Hne].
        -- rewrite list_lookup_middle in Hk by done. injection Hk as <-.
           rewrite Hsize. apply lookup_insert_eq.
        -- assert (Hlt : (k < length bios)%nat).
           { apply lookup_lt_Some in Hk. rewrite length_app in Hk.
             cbn in Hk. lia. }
           rewrite lookup_app_l in Hk by done.
           rewrite lookup_insert_ne; [by apply Hget|].
           intros Hkey. apply string_app_inj_l, str_Z_inj in Hkey. lia.
    + apply IH.
      * unfold acc_step. by destruct (break_type b).
      * unfold acc_step. by destruct (break_type b).
      * unfold acc_step. by destruct (break_type b).
Qed.

(** X9.  Every Bio break is recorded on its own in the [bio_breaks] detail: the
    dict has as many keys as the session has Bio entries, and the k-th Bio
    entry (from 1) is found under "bio_break_k" with its minutes; no entry
    overwrites another. *)
Theorem bio_breaks_recorded_individually (bs : list BreakEntry) :
  let bios := filter (fun b => break_type b = BIO) bs in
  let m := bio_breaks (accumulate bs) in
  size m = count_kind BIO bs /\
  (forall k b, bios !! k = Some b ->
     m !! ("bio_break_" +:+ Py.str_Z (Z.of_nat k + 1)) = Some (duration_of b)).
Proof.
  cbv zeta. unfold accumulate, count_kind.
  apply (foldl_acc_step_bio bs acc0 []).
  - cbn. apply map_size_empty.
  - cbn. intros key [v Hv]. by rewrite lookup_empty in Hv.
  - intros k b Hk. by rewrite lookup_nil in Hk.
Qed.

End CalculatorMore.

(** ** The overlap detector: detection as a property of the set of breaks *)

Section DetectorMore.
Import TimeCalculator.

Lemma overlapping_pair_sym (b1 b2 : BreakEntry) :
  overlapping_pair b1 b2 -> overlapping_pair b2 b1.
Proof.
  intros (s1 & e1 & s2 & e2 & H1 & H2 & H3 & H4 & Hd).
  exists s2, e2, s1, e1. repeat (split; [done|]). tauto.
Qed.

Lemma has_overlap_nonempty (bs : list BreakEntry) :
  (check_overlapping_breaks bs).1 = true <-> exists o, o ∈ overlaps bs.
Proof.
  unfold check_overlapping_breaks. destruct (overlaps bs) as [|o os]; cbn.
  - split; [done|]. by intros [o ?%elem_of_nil].
  - split; [|done]. intros _. exists o. by left.
Qed.

(** The detector reports an overlap exactly when two entries at different
    positions are both timed and not disjoint. *)
Lemma has_overlap_iff (bs : list BreakEntry) :
  (check_overlapping_breaks bs).1 = true <->
  exists i j b1 b2,
    i <> j /\ bs !! i = Some b1 /\ bs !! j = Some b2 /\ overlapping_pair b1 b2.
Proof.
  rewrite has_overlap_nonempty. unfold overlaps, timed, Py.enumerate. split.
  - intros (o & Ho). apply elem_of_outer_loop in Ho
      as (i & j & [i1 b1 s1 e1] & [i2 b2 s2 e2] & Hij & H1 & H2 & Hd & _).
    destruct H1 as (Hb1 & Hs1 & He1 & _), H2 as (Hb2 & Hs2 & He2 & _).
    cbn in *. apply disjoint_false in Hd. cbn in Hd.
    exists i, j, b1, b2. split; [lia|]. split; [done|]. split; [done|].
    by exists s1, e1, s2, e2.
  - assert (Hlt : forall i j b1 b2,
               (i < j)%nat -> bs !! i = Some b1 -> bs !! j = Some b2 ->
               overlapping_pair b1 b2 ->
               exists o, o ∈ outer_loop (omap timed_of (Py.enumerate_from 0 bs))).
    { intros i j b1 b2 Hij Hb1 Hb2 (s1 & e1 & s2 & e2 & Hs1 & He1 & Hs2 & He2 & Hd).
      eexists. apply elem_of_outer_loop.
      exists i, j, (mk_Timed i b1 s1 e1), (mk_Timed j b2 s2 e2).
      split; [done|]. split; [done|]. split; [done|].
      split; [by apply disjoint_false|done]. }
    intros (i & j & b1 & b2 & Hij & Hb1 & Hb2 & Hp).
    destruct (Nat.lt_total i j) as [Hlt'|[->|Hgt]]; [|done|].
    + by apply (Hlt i j b1 b2).
    + apply (Hlt j i b2 b1); try done. by apply overlapping_pair_sym.
Qed.

(** X10.  Detection does not depend on the order of the breaks: permuting the
    list (reversing it, for instance) leaves the overlap flag unchanged. *)
Theorem overlap_detection_order_independent (bs bs' : list BreakEntry) :
  bs ≡ₚ bs' ->
  (check_overlapping_breaks bs).1 = (check_overlapping_breaks bs').1.
Proof.
  assert (Hdir : forall l l' : list BreakEntry,
             l ≡ₚ l' ->
             (check_overlapping_breaks l).1 = true ->
             (check_overlapping_breaks l').1 = true).
  { intros l l' (_ & f & Hinj & Hf)%Permutation_inj.
    rewrite !has_overlap_iff.
    intros (i & j & b1 & b2 & Hij & Hb1 & Hb2 & Hp).
    exists (f i), (f j), b1, b2. rewrite <- !Hf.
    split; [|done]. intros Heq. by apply Hinj in Heq. }
  intros Hperm.
  destruct (check_overlapping_breaks bs).1 eqn:E1.
  - symmetry. by apply (Hdir bs bs').
  - destruct (check_overlapping_breaks bs').1 eqn:E2; [|done].
    symmetry in Hperm. rewrite (Hdir bs' bs Hperm E2) in E1. done.
Qed.

Lemma overlap_detection_order_independent_witness :
  (check_overlapping_breaks (reverse Examples.overlapping_breaks)).1
  = (check_overlapping_breaks Examples.overlapping_breaks).1.
Proof.
  apply overlap_detection_order_independent. apply reverse_Permutation.
Defined.

Lemma enumerate_from_app {A} (n : nat) (l1 l2 : list A) :
  Py.enumerate_from n (l1 ++ l2)
  = Py.enumerate_from n l1 ++ Py.enumerate_from (n + length l1) l2.
Proof.
  revert n. induction l1 as [|x l1 IH]; intros n; cbn.
  - by rewrite Nat.add_0_r.
  - rewrite IH. by rewrite Nat.add_succ_r.
Qed.

Lemma timed_of_untimed (n : nat) (b : BreakEntry) :
  untimed b -> timed_of (n, b) = None.
Proof.
  unfold untimed, timed_of. cbn. intros [-> | ->]; [done|].
  by destruct (start_time b).
Qed.

Lemma timed_untimed (n : nat) (bs : list BreakEntry) :
  Forall untimed bs -> omap timed_of (Py.enumerate_from n bs) = [].
Proof.
  intros Hbs. revert n. induction Hbs as [|b bs Hb _ IH]; intros n; [done|].
  rewrite timed_from_cons, (timed_of_untimed n b Hb). apply IH.
Qed.

(** X11.  Breaks without a start or an end take no part in the detection: a list
    of such breaks has no overlap, and appending such a break to any list
    leaves the detector's result, flag and message, unchanged. *)
Theorem untimed_breaks_never_overlap (bs : list BreakEntry) :
  (Forall untimed bs -> check_overlapping_breaks bs = (false, None)) /\
  (forall b, untimed b ->
             check_overlapping_breaks (bs ++ [b]) = check_overlapping_breaks bs).
Proof.
  split.
  - intros Hbs. unfold check_overlapping_breaks, overlaps, timed, Py.enumerate.
    by rewrite timed_untimed.
  - intros b Hb. unfold check_overlapping_breaks, overlaps, timed, Py.enumerate.
    rewrite enumerate_from_app, omap_app.
    rewrite (timed_untimed _ [b]) by (by constructor).
    by rewrite app_nil_r.
Qed.

Lemma disjoint_view (t1 t2 t1' t2' : Timed) :
  timed_view t1 = timed_view t1' -> timed_view t2 = timed_view t2' ->
  disjoint t1 t2 = disjoint t1' t2' /\ overlap_of t1 t2 = overlap_of t1' t2'.
Proof.
  unfold timed_view, disjoint, overlap_of.
  intros [= Hi1 Hk1 Hs1 He1] [= Hi2 Hk2 Hs2 He2].
  by rewrite Hi1, Hk1, Hs1, He1, Hi2, Hk2, Hs2, He2.
Qed.

Lemma inner_loop_cons (t1 t2 : Timed) (later : list Timed) :
  inner_loop t1 (t2 :: later)
  = if disjoint t1 t2 then inner_loop t1 later
    else overlap_of t1 t2 :: inner_loop t1 later.
Proof. unfold inner_loop. cbn. by destruct (disjoint t1 t2). Qed.

Lemma inner_loop_view (t1 t1' : Timed) (later later' : list Timed) :
  timed_view t1 = timed_view t1' ->
  map timed_view later = map timed_view later' ->
  inner_loop t1 later = inner_loop t1' later'.
Proof.
  intros H1. revert later'.
  induction later as [|t2 later IH]; intros [|t2' later'] Hl; try done.
  cbn [map] in Hl.
  assert (H2 : timed_view t2 = timed_view t2') by congruence.
  assert (Hl' : map timed_view later = map timed_view later') by congruence.
  destruct (disjoint_view t1 t2 t1' t2' H1 H2) as [Hd Ho].
  by rewrite !inner_loop_cons, Hd, Ho, (IH later' Hl').
Qed.

Lemma outer_loop_view (ts ts' : list Timed) :
  map timed_view ts = map timed_view ts' -> outer_loop ts = outer_loop ts'.
Proof.
  revert ts'. induction ts as [|t ts IH]; intros [|t' ts'] Hv; try done.
  cbn [map] in Hv.
  assert (H1 : timed_view t = timed_view t') by congruence.
  assert (Hl : map timed_view ts = map timed_view ts') by congruence.
  cbn [outer_loop]. by rewrite (inner_loop_view t t' ts ts' H1 Hl), (IH ts' Hl).
Qed.

Lemma timed_interval_view (n : nat) (bs bs' : list BreakEntry) :
  map interval_view bs = map interval_view bs' ->
  map timed_view (omap timed_of (Py.enumerate_from n bs))
  = map timed_view (omap timed_of (Py.enumerate_from n bs')).
Proof.
  revert n bs'. induction bs as [|b bs IH]; intros n [|b' bs'] Hv; try done.
  cbn [map] in Hv.
  assert (Hb : interval_view b = interval_view b') by congruence.
  assert (Hl : map interval_view bs = map interval_view bs') by congruence.
  rewrite !timed_from_cons. specialize (IH (S n) bs' Hl).
  assert (Ht : timed_view <$> timed_of (n, b) = timed_view <$> timed_of (n, b')).
  { unfold interval_view in Hb. injection Hb as Hk Hs He.
    unfold timed_of, timed_view. cbn [fst snd]. rewrite Hs, He.
    destruct (start_time b'), (end_time b'); try done. cbn. by rewrite Hk. }
  destruct (timed_of (n, b)) as [t|], (timed_of (n, b')) as [t'|];
    try done.
  change (Some (timed_view t) = Some (timed_view t')) in Ht.
  assert (Ht' : timed_view t = timed_view t') by congruence.
  cbn [map]. by rewrite Ht', IH.
Qed.

(** X12.  The detector reads of each break only its kind and its two timestamps:
    lists that agree on these give the same result, whatever the durations
    and timezone labels are. *)
Theorem overlap_detection_reads_intervals_only (bs bs' : list BreakEntry) :
  map interval_view bs = map interval_view bs' ->
  check_overlapping_breaks bs = check_overlapping_breaks bs'.
Proof.
  intros Hv. unfold check_overlapping_breaks, overlaps, timed, Py.enumerate.
  by rewrite (outer_loop_view _ _ (timed_interval_view 0 bs bs' Hv)).
Qed.

Lemma overlap_detection_reads_intervals_only_witness :
  check_overlapping_breaks
    [mk_BreakEntry BIO (Some (Examples.at_ 739486 10 0 0))
       (Some (Examples.at_ 739486 10 30 0)) None None;
     mk_BreakEntry BIO (Some (Examples.at_ 739486 10 15 0))
       (Some (Examples.at_ 739486 10 45 0)) (Some 99) (Some "Asia/Kolkata")]
  = check_overlapping_breaks
      [Examples.timed_break BIO (Examples.at_ 739486 10 0 0)
         (Examples.at_ 739486 10 30 0) 30;
       Examples.timed_break BIO (Examples.at_ 739486 10 15 0)
         (Examples.at_ 739486 10 45 0) 30].
Proof.
  apply overlap_detection_reads_intervals_only. reflexivity.
Defined.

End DetectorMore.

(** ** The store, the merger and the endpoints *)

Section StoreAndEndpoints.
Context `{Collaborators} `{Clock}.
Import SessionManager Tracking TimeCalculator Endpoints.

Lemma new_session_key (kwargs : list KwArg) (s : TimeEntry) :
  let r := foldl (fun s kw =>
                    match kw with
                    | kw_login_time v => set_login_time s (Some v)
                    | kw_logout_time v => set_logout_time s (Some v)
                    | kw_breaks v => set_breaks s v
                    end) s kwargs in
  emp_id r = emp_id s /\ date r = date s /\ timezone r = timezone s /\
  ip_address r = ip_address s /\ location r = location s /\
  total_work_hours r = total_work_hours s /\ scenario r = scenario s.
Proof.
  revert s. induction kwargs as [|kw kwargs IH]; intros s; [done|].
  cbn [foldl]. cbv zeta in IH.
  destruct kw as [v|v|v];
    [exact (IH (set_login_time s (Some v)))
    |exact (IH (set_logout_time s (Some v)))
    |exact (IH (set_breaks s v))].
Qed.

(** Both branches of the merger store one session under the key
    (employee, today) and return it. *)
Lemma create_or_update_session_merged (db : Store) (emp : string)
    (request : option Request) (kwargs : list KwArg) :
  create_or_update_session db emp request kwargs
  = (<[(emp, current_date) := merged_session db emp request kwargs]> db,
     Some (merged_session db emp request kwargs)).
Proof.
  unfold create_or_update_session, merged_session.
  destruct (resolve request) as [[tz loc] ip].
  destruct (TimeEntryRepository.get_time_entry db emp current_date)
    as [s|] eqn:Hget.
  - unfold TimeEntryRepository.update_time_entry.
    unfold TimeEntryRepository.get_time_entry in Hget. by rewrite Hget.
  - unfold TimeEntryRepository.create_time_entry.
    match goal with
    | |- context [foldl ?f ?s0 kwargs] =>
        destruct (new_session_key kwargs s0) as (He & Hd & _)
    end.
    rewrite He, Hd. done.
Qed.

(** X13.  After any call of the merger the day's session of the employee exists
    and is the returned one, and no other key of the store has changed. *)
Theorem create_or_update_session_stores (db : Store) (emp : string)
    (request : option Request) (kwargs : list KwArg) :
  let r := create_or_update_session db emp request kwargs in
  is_Some r.2 /\
  get_current_session r.1 emp = r.2 /\
  (forall k, k <> (emp, current_date) -> r.1 !! k = db !! k).
Proof.
  cbv zeta. rewrite create_or_update_session_merged. cbn [fst snd].
  split; [by eexists|]. split.
  - unfold get_current_session, TimeEntryRepository.get_time_entry.
    apply lookup_insert_eq.
  - intros k Hk. by rewrite lookup_insert_ne.
Qed.

Lemma TimeEntry_eq (s t : TimeEntry) :
  emp_id s = emp_id t -> date s = date t ->
  login_time s = login_time t -> logout_time s = logout_time t ->
  breaks s = breaks t -> total_work_hours s = total_work_hours t ->
  scenario s = scenario t -> timezone s = timezone t ->
  ip_address s = ip_address t -> location s = location t -> s = t.
Proof. destruct s, t. cbn. intros. by subst. Qed.

Lemma apply_kwarg_absorb (ks : list KwArg) (x : TimeEntry) (k : KwArg) :
  not_breaks k -> Forall not_breaks ks ->
  apply_kwarg (foldl apply_kwarg (apply_kwarg x k) ks) k
  = apply_kwarg (foldl apply_kwarg x ks) k.
Proof.
  intros Hk Hks. revert x. induction Hks as [|k' ks Hk' _ IH]; intros x.
  - by destruct k.
  - cbn [foldl]. destruct k as [v|v|v], k' as [v'|v'|v']; try done.
    + exact (IH (apply_kwarg x (kw_logout_time v'))).
    + exact (IH (apply_kwarg x (kw_login_time v'))).
Qed.

Lemma foldl_apply_kwarg_idem (ks : list KwArg) (s : TimeEntry) :
  Forall not_breaks ks ->
  foldl apply_kwarg (foldl apply_kwarg s ks) ks = foldl apply_kwarg s ks.
Proof.
  induction ks as [|k ks IH] using rev_ind; intros Hks; [done|].
  apply Forall_app in Hks as [Hks Hk]. apply Forall_cons in Hk as [Hk _].
  rewrite !foldl_app. cbn [foldl].
  rewrite apply_kwarg_absorb by done. by rewrite IH.
Qed.

Lemma foldl_apply_kwarg_refresh (ks : list KwArg) (x : TimeEntry)
    (tz : string) (loc : option Location) (ip : option string) :
  Forall not_breaks ks ->
  foldl apply_kwarg (refresh x tz loc ip) ks
  = refresh (foldl apply_kwarg x ks) tz loc ip.
Proof.
  intros Hks. revert x. induction Hks as [|k ks Hk _ IH]; intros x; [done|].
  cbn [foldl]. rewrite <- IH. by destruct k.
Qed.

Lemma refresh_idem (x : TimeEntry) (tz : string) (loc : option Location)
    (ip : option string) :
  refresh (refresh x tz loc ip) tz loc ip = refresh x tz loc ip.
Proof.
  unfold refresh. cbn. f_equal.
  - destruct ip as [a|]; [|done]. by destruct (String.eqb a "").
  - by destruct loc as [[|]|].
Qed.

Lemma new_session_apply (ks : list KwArg) (s : TimeEntry) :
  Forall not_breaks ks ->
  foldl (fun s kw =>
           match kw with
           | kw_login_time v => set_login_time s (Some v)
           | kw_logout_time v => set_logout_time s (Some v)
           | kw_breaks v => set_breaks s v
           end) s ks
  = foldl apply_kwarg s ks.
Proof.
  intros Hks. revert s. induction Hks as [|k ks Hk _ IH]; intros s; [done|].
  cbn [foldl]. rewrite IH. by destruct k.
Qed.

Lemma foldl_apply_kwarg_fields (ks : list KwArg) (s : TimeEntry) :
  Forall not_breaks ks ->
  let r := foldl apply_kwarg s ks in
  emp_id r = emp_id s /\ date r = date s /\ breaks r = breaks s /\
  total_work_hours r = total_work_hours s /\ scenario r = scenario s /\
  timezone r = timezone s /\ ip_address r = ip_address s /\
  location r = location s.
Proof.
  intros Hks. revert s. induction Hks as [|k ks Hk _ IH]; intros s; [done|].
  cbn [foldl]. cbv zeta in IH.
  destruct k as [v|v|v]; [| |done].
  - exact (IH (apply_kwarg s (kw_login_time v))).
  - exact (IH (apply_kwarg s (kw_logout_time v))).
Qed.

(** X14.  Login and logout updates are idempotent: repeating a merger call whose
    keyword arguments hold no breaks, with the same request, returns the same
    session and leaves the store as the first call left it. *)
Theorem login_logout_merge_idempotent (db : Store) (emp : string)
    (request : option Request) (kwargs : list KwArg) :
  Forall not_breaks kwargs ->
  let r := create_or_update_session db emp request kwargs in
  create_or_update_session r.1 emp request kwargs = r.
Proof.
  intros Hks. cbv zeta. rewrite !create_or_update_session_merged.
  cbn [fst snd]. rewrite insert_insert_eq.
  assert (Hm : merged_session
                 (<[(emp, current_date) := merged_session db emp request kwargs]> db)
                 emp request kwargs
               = merged_session db emp request kwargs).
  { unfold merged_session at 1.
    unfold TimeEntryRepository.get_time_entry. rewrite lookup_insert_eq.
    unfold merged_session.
    destruct (resolve request) as [[tz loc] ip].
    destruct (TimeEntryRepository.get_time_entry db emp current_date)
      as [s|] eqn:Hget.
    - rewrite foldl_apply_kwarg_refresh by done.
      by rewrite foldl_apply_kwarg_idem, refresh_idem.
    - rewrite new_session_apply by done.
      rewrite foldl_apply_kwarg_idem by done.
      match goal with
      | |- context [foldl apply_kwarg ?s0 kwargs] =>
          destruct (foldl_apply_kwarg_fields kwargs s0 Hks)
            as (He & Hd & Hb & Hw & Hsc & Htz & Hip & Hloc);
          set (n := foldl apply_kwarg s0 kwargs) in *
      end.
      cbn in He, Hd, Hb, Hw, Hsc, Htz, Hip, Hloc.
      apply TimeEntry_eq; cbn; try done.
      + rewrite Hip. destruct ip as [a|]; [|done]. by destruct (String.eqb a "").
      + rewrite Hloc. by destruct loc as [[|]|]. }
  by rewrite Hm.
Qed.

(** X17.  [record_break] touches nothing but the day's session of the employee:
    an error leaves the whole store as it was, other keys never change, no
    session is created, and in a stored session the login and logout stay
    and the break list is the old one or the old one with one entry
    appended. *)
Theorem record_break_frame (db : Store) (request : BreakRequest)
    (req : Request) :
  let r := record_break db request req in
  let key := (rq_emp_id request, current_date) in
  (forall e, r.2 = inl e -> r.1 = db) /\
  (forall k, k <> key -> r.1 !! k = db !! k) /\
  (forall s', r.1 !! key = Some s' ->
     exists s, db !! key = Some s /\
               login_time s' = login_time s /\
               logout_time s' = logout_time s /\
               (breaks s' = breaks s \/
                exists entry, breaks s' = breaks s ++ [entry])).
Proof.
  cbv zeta.
  assert (Hsame : forall x : Py.Result BreakResponse,
             (forall e, (db, x).2 = inl e -> (db, x).1 = db) /\
             (forall k, k <> (rq_emp_id request, current_date) ->
                        (db, x).1 !! k = db !! k) /\
             (forall s', (db, x).1 !! (rq_emp_id request, current_date) = Some s' ->
                exists s, db !! (rq_emp_id request, current_date) = Some s /\
                          login_time s' = login_time s /\
                          logout_time s' = logout_time s /\
                          (breaks s' = breaks s \/
                           exists entry, breaks s' = breaks s ++ [entry]))).
  { intros x. cbn [fst snd]. split; [done|]. split; [done|].
    intros s' Hs'. exists s'. repeat split; try done. by left. }
  unfold record_break.
  destruct (get_current_session db (rq_emp_id request)) as [session|] eqn:Hs;
    [|apply Hsame].
  destruct (make_break_entry request (user_tz session)) as [err|entry] eqn:E;
    [apply Hsame|].
  destruct (already_recorded entry session) eqn:Hdup; [apply Hsame|].
  rewrite (check_overlapping_breaks_pair (breaks session ++ [entry])).
  destruct (check_overlapping_breaks (breaks session ++ [entry])).1;
    [apply Hsame|].
  destruct (create_or_update_session_break db (rq_emp_id request) (Some req)
              session entry Hs) as (s1 & Hc & Hb & Hli & Hlo).
  rewrite Hc. cbn [fst snd]. split; [done|]. split.
  - intros k Hk. by rewrite lookup_insert_ne.
  - intros s' Hs'. rewrite lookup_insert_eq in Hs'. injection Hs' as <-.
    exists session. split; [exact Hs|]. split; [done|]. split; [done|].
    right. exists entry. by rewrite Hb, merge_break_not_recorded.
Qed.

Lemma sum_durations_app (l1 l2 : list BreakEntry) :
  sum_durations (l1 ++ l2) = sum_durations l1 + sum_durations l2.
Proof.
  induction l1 as [|b l1 IH]; [done|].
  cbn [app]. rewrite !sum_durations_cons, IH. lia.
Qed.

(** X18.  A break that is constructed, is no duplicate and overlaps nothing is
    recorded: the endpoint answers "Break recorded successfully", the stored
    session has the entry appended to its breaks, and the break total the
    calculator reads of the session grows by the entry's minutes. *)
Theorem record_break_success (db : Store) (request : BreakRequest)
    (req : Request) (session : TimeEntry) (entry : BreakEntry) :
  get_current_session db (rq_emp_id request) = Some session ->
  make_break_entry request (user_tz session) = inr entry ->
  already_recorded entry session = false ->
  (check_overlapping_breaks (breaks session ++ [entry])).1 = false ->
  exists s' start_ end_,
    record_break db request req
    = (<[(rq_emp_id request, current_date) := s']> db,
       inr (BreakRecorded "Break recorded successfully" (rq_break_type request)
              (duration_minutes entry) start_ end_ (user_tz session))) /\
    get_current_session (record_break db request req).1 (rq_emp_id request)
    = Some s' /\
    breaks s' = breaks session ++ [entry] /\
    total_break_min (accumulate (breaks s'))
    = total_break_min (accumulate (breaks session)) + duration_of entry.
Proof.
  intros Hs Hb Hdup Hov.
  destruct (create_or_update_session_break db (rq_emp_id request) (Some req)
              session entry Hs) as (s1 & Hc & Hbr & _).
  assert (Hd : auto_duration request (user_tz session) = duration_minutes entry).
  { unfold make_break_entry, BreakEntry_new in Hb.
    destruct (validate_end_time _ _) as [?|e'] eqn:Hv; [done|].
    injection Hb as <-. cbn [duration_minutes].
    unfold auto_duration, calculate_duration.
    assert (He : e' = end_utc request (user_tz session)).
    { unfold validate_end_time in Hv. repeat case_match; by simplify_eq. }
    rewrite He.
    destruct (start_utc request (user_tz session)),
      (end_utc request (user_tz session)), (rq_duration_minutes request);
      done. }
  exists s1. eexists. eexists.
  assert (Hr : record_break db request req
               = (<[(rq_emp_id request, current_date) := s1]> db,
                  inr (BreakRecorded "Break recorded successfully"
                         (rq_break_type request) (duration_minutes entry)
                         ((fun t => _to_user_zone t (user_tz session))
                            <$> start_utc request (user_tz session))
                         ((fun t => _to_user_zone t (user_tz session))
                            <$> end_utc request (user_tz session))
                         (user_tz session)))).
  { unfold record_break. rewrite Hs, Hb, Hdup.
    rewrite (check_overlapping_breaks_pair (breaks session ++ [entry])), Hov.
    by rewrite Hc, Hd. }
  split; [exact Hr|]. rewrite Hr. cbn [fst].
  split.
  { unfold get_current_session, TimeEntryRepository.get_time_entry.
    apply lookup_insert_eq. }
  rewrite Hbr, merge_break_not_recorded by done. split; [done|].
  unfold accumulate.
  destruct (foldl_acc_step_totals (breaks session ++ [entry]) acc0) as [-> _].
  destruct (foldl_acc_step_totals (breaks session) acc0) as [-> _].
  rewrite sum_durations_app, sum_durations_cons. cbn. lia.
Qed.

(** X16.  Deleting the day's entry: afterwards the lookup finds nothing, the
    result tells whether an entry existed, other keys are untouched, and
    deleting what [create_time_entry] just added to a store that had no
    such entry gives the store back. *)
Theorem delete_time_entry_round_trip (db : Store) (emp : string) (day : Z) :
  let r := Repository.delete_time_entry db emp day in
  TimeEntryRepository.get_time_entry r.1 emp day = None /\
  (r.2 = true <-> is_Some (TimeEntryRepository.get_time_entry db emp day)) /\
  (r.2 = false -> r.1 = db) /\
  (forall k, k <> (emp, day) -> r.1 !! k = db !! k) /\
  (forall te,
     TimeEntryRepository.get_time_entry db (emp_id te) (Py.ordinal (date te))
     = None ->
     (Repository.delete_time_entry
        (TimeEntryRepository.create_time_entry db te).1
        (emp_id te) (Py.ordinal (date te))).1 = db).
Proof.
  cbv zeta. unfold Repository.delete_time_entry,
    TimeEntryRepository.get_time_entry, TimeEntryRepository.create_time_entry.
  cbn [fst snd]. split; [apply lookup_delete_eq|]. split.
  { by rewrite bool_decide_eq_true. }
  split.
  { rewrite bool_decide_eq_false. intros Hn. apply delete_id.
    by apply eq_None_not_Some. }
  split.
  { intros k Hk. by rewrite lookup_delete_ne. }
  intros te Hnone. by rewrite delete_insert_eq, delete_id.
Qed.

Lemma resolve_request (req : Request) :
  resolve (Some req)
  = ((get_timezone_from_ip (get_client_ip req)).1,
     (get_timezone_from_ip (get_client_ip req)).2,
     Some (get_client_ip req)).
Proof.
  unfold resolve. by destruct (get_timezone_from_ip (get_client_ip req)).
Qed.

(** The fields of the session the merger stores for a single login or
    logout update. *)
Lemma merged_session_login (db : Store) (emp : string) (req : Request)
    (t : Py.datetime) :
  let m := merged_session db emp (Some req) [kw_login_time t] in
  login_time m = Some t /\
  timezone m = (get_timezone_from_ip (get_client_ip req)).1 /\
  match TimeEntryRepository.get_time_entry db emp current_date with
  | Some s => logout_time m = logout_time s /\ breaks m = breaks s
  | None => logout_time m = None /\ breaks m = []
  end.
Proof.
  cbv zeta. unfold merged_session. rewrite resolve_request.
  by destruct (TimeEntryRepository.get_time_entry db emp current_date).
Qed.

Lemma merged_session_logout (db : Store) (emp : string) (req : Request)
    (t : Py.datetime) :
  let m := merged_session db emp (Some req) [kw_logout_time t] in
  logout_time m = Some t /\
  match TimeEntryRepository.get_time_entry db emp current_date with
  | Some s => login_time m = login_time s /\ breaks m = breaks s
  | None => login_time m = None /\ breaks m = []
  end.
Proof.
  cbv zeta. unfold merged_session. rewrite resolve_request.
  by destruct (TimeEntryRepository.get_time_entry db emp current_date).
Qed.

(** X19.  After [login] the day's session of the employee exists with the login
    time set to the submitted time (or the clock's time) converted to UTC in
    the resolved timezone; the logout and the breaks of an existing session
    are kept, a new session has no logout and no breaks; other keys of the
    store are untouched. *)
Theorem login_stores_login_time (db : Store) (request : LoginRequest)
    (req : Request) :
  let tz := (get_timezone_from_ip (get_client_ip req)).1 in
  let t := _to_utc_naive
             (default (get_current_time_in_timezone tz) (li_login_time request))
             tz in
  let r := login db request req in
  exists s',
    get_current_session r.1 (li_emp_id request) = Some s' /\
    login_time s' = Some t /\
    timezone s' = tz /\
    match get_current_session db (li_emp_id request) with
    | Some s => logout_time s' = logout_time s /\ breaks s' = breaks s
    | None => logout_time s' = None /\ breaks s' = []
    end /\
    (forall k, k <> (li_emp_id request, current_date) -> r.1 !! k = db !! k) /\
    li_resp_login_time r.2 = _to_user_zone t tz.
Proof.
  cbv zeta. unfold login.
  destruct (get_timezone_from_ip (get_client_ip req)) as [tz loc] eqn:Htz.
  cbn [fst]. rewrite create_or_update_session_merged. cbn [fst snd].
  eexists. split.
  { unfold get_current_session, TimeEntryRepository.get_time_entry.
    apply lookup_insert_eq. }
  match goal with
  | |- context [merged_session db ?e (Some req) [kw_login_time ?t]] =>
      destruct (merged_session_login db e req t) as (Hl & Ht & Hrest)
  end.
  rewrite Htz in Ht. cbn [fst] in Ht.
  assert (Hdef : forall o : option Py.datetime,
             match o with
             | Some t0 => t0
             | None => get_current_time_in_timezone tz
             end = default (get_current_time_in_timezone tz) o)
    by (by intros [t0|]).
  rewrite Hdef in Hl, Ht, Hrest |- *.
  split; [exact Hl|]. split; [exact Ht|]. split; [exact Hrest|].
  split; [|done]. intros k Hk. by rewrite lookup_insert_ne.
Qed.

(** X20.  [logout] needs a session: without one it fails with 404 and the store
    is unchanged; with one it stores the logout time, converted in the
    session's timezone, and keeps the login and the breaks. *)
Theorem logout_requires_session (db : Store) (request : LogoutRequest)
    (req : Request) :
  (get_current_session db (lo_emp_id request) = None ->
   logout db request req
   = (db, inl (Py.HTTPException 404 "No active session found"))) /\
  (forall s,
     get_current_session db (lo_emp_id request) = Some s ->
     let t := _to_utc_naive
                (default (get_current_time_in_timezone (user_tz s))
                         (lo_logout_time request))
                (user_tz s) in
     exists s' resp,
       logout db request req
       = (<[(lo_emp_id request, current_date) := s']> db, inr resp) /\
       logout_time s' = Some t /\ login_time s' = login_time s /\
       breaks s' = breaks s /\
       lo_resp_logout_time resp = _to_user_zone t (user_tz s)).
Proof.
  split.
  - intros Hs. unfold logout. by rewrite Hs.
  - intros s Hs. cbv zeta. unfold logout. rewrite Hs.
    rewrite create_or_update_session_merged.
    assert (Hdef : forall o : option Py.datetime,
               match o with
               | Some t0 => t0
               | None => get_current_time_in_timezone (user_tz s)
               end = default (get_current_time_in_timezone (user_tz s)) o)
      by (by intros [t0|]).
    rewrite Hdef.
    match goal with
    | |- context [merged_session db ?e (Some req) [kw_logout_time ?t]] =>
        destruct (merged_session_logout db e req t) as (Hlo & Hrest)
    end.
    unfold get_current_session in Hs. rewrite Hs in Hrest.
    destruct Hrest as [Hli Hbr].
    eexists. eexists. split; [reflexivity|]. by repeat split.
Qed.

Lemma string_cons_app (c : Ascii.ascii) (s r : string) :
  String c s +:+ r = String c (s +:+ r).
Proof. reflexivity. Qed.

(** The decimal text of an integer, followed by anything, is not the word
    "Absent": it starts with a digit or a minus sign. *)
Lemma str_Z_not_absent (z : Z) (rest : string) :
  Py.str_Z z +:+ rest <> "Absent".
Proof.
  unfold Py.str_Z, NilZero.string_of_int, NilZero.string_of_uint.
  destruct (Z.to_int z) as [u|u]; destruct u;
    cbn [NilEmpty.string_of_uint]; rewrite ?string_cons_app; discriminate.
Qed.

Lemma format_hours_absent (hrs : Q) :
  format_hours hrs = "Absent" <-> (hrs == 0)%Q.
Proof.
  unfold format_hours. destruct (Qeq_bool hrs 0) eqn:E.
  - apply Qeq_bool_iff in E. by split.
  - split.
    + destruct (_ =? 0); intros Habs; by apply str_Z_not_absent in Habs.
    + intros Hz. apply Qeq_bool_iff in Hz. congruence.
Qed.

(** X22.  [calculate_hours]: 404 without a session; otherwise the response carries
    the calculator's scenario and details and the session's breaks in order,
    and the displayed total is the word "Absent" exactly when the computed
    hours are 0 (so also for a session that has a login but no counted
    time, whose scenario is not "Absent"). *)
Theorem calculate_hours_display (db : Store) (emp : string) :
  (get_current_session db emp = None ->
   calculate_hours db emp
   = inl (Py.HTTPException 404 "No session found for employee")) /\
  (forall session,
     get_current_session db emp = Some session ->
     exists resp,
       calculate_hours db emp = inr resp /\
       r_scenario resp = (calculate_work_hours session).2 /\
       r_calculation_details resp = (calculate_work_hours session).1.2 /\
       map bi_type (r_breaks resp) = map break_type (breaks session) /\
       (r_total_work_hours resp = "Absent"
        <-> ((calculate_work_hours session).1.1 == 0)%Q)).
Proof.
  split.
  - intros Hs. unfold calculate_hours. by rewrite Hs.
  - intros session Hs. unfold calculate_hours. rewrite Hs.
    destruct (calculate_work_hours session) as [[hrs details] sc].
    eexists. split; [reflexivity|]. cbn.
    split; [done|]. split; [done|]. split.
    + rewrite map_map. by apply map_ext.
    + apply format_hours_absent.
Qed.

(** X23.  The preview and the recording endpoint agree: [validate_break_timing]
    fails with the construction error exactly as [record_break] would, and
    otherwise reports the overlap check [record_break] makes on the same
    request; it makes no duplicate check.  So an overlap warning of
    [record_break] is always previewed as an overlap with the same text, and
    a recorded break is always previewed as valid. *)
Theorem validate_agrees_with_record (db : Store) (request : BreakRequest)
    (req : Request) (session : TimeEntry) :
  get_current_session db (rq_emp_id request) = Some session ->
  validate_break_timing db request
  = match make_break_entry request (user_tz session) with
    | inl e => inl e
    | inr entry =>
        let ov := check_overlapping_breaks (breaks session ++ [entry]) in
        inr {| v_valid := negb ov.1; v_overlap_detected := ov.1;
               v_overlap_details := ov.2 |}
    end /\
  (forall db' m w b,
     record_break db request req = (db', inr (OverlapWarning m w b)) ->
     validate_break_timing db request
     = inr {| v_valid := false; v_overlap_detected := true;
              v_overlap_details := w |}) /\
  (forall db' m k d s e z,
     record_break db request req = (db', inr (BreakRecorded m k d s e z)) ->
     exists v, validate_break_timing db request = inr v /\ v_valid v = true).
Proof.
  intros Hs.
  assert (Hv : validate_break_timing db request
               = match make_break_entry request (user_tz session) with
                 | inl e => inl e
                 | inr entry =>
                     let ov := check_overlapping_breaks
                                 (breaks session ++ [entry]) in
                     inr {| v_valid := negb ov.1; v_overlap_detected := ov.1;
                            v_overlap_details := ov.2 |}
                 end).
  { unfold validate_break_timing, make_break_entry, BreakEntry_new.
    rewrite Hs.
    destruct (validate_end_time _ _) as [err|e']; [done|].
    assert (Hc : forall t u : BreakEntry,
               interval_view t = interval_view u ->
               (let '(overlaps, details) :=
                  check_overlapping_breaks (breaks session ++ [t]) in
                inr {| v_valid := negb overlaps;
                       v_overlap_detected := overlaps;
                       v_overlap_details := details |}
                : Py.Result ValidateResponse)
               = (let ov := check_overlapping_breaks (breaks session ++ [u]) in
                  inr {| v_valid := negb ov.1; v_overlap_detected := ov.1;
                         v_overlap_details := ov.2 |})).
    { intros t u Htu.
      assert (Heq : check_overlapping_breaks (breaks session ++ [t])
                    = check_overlapping_breaks (breaks session ++ [u])).
      { unfold check_overlapping_breaks, overlaps, timed, Py.enumerate.
        erewrite outer_loop_view; [reflexivity|].
        apply timed_interval_view. rewrite !map_app. cbn [map].
        by rewrite Htu. }
      rewrite Heq. cbv zeta.
      by destruct (check_overlapping_breaks (breaks session ++ [u])). }
    apply Hc. reflexivity. }
  split; [exact Hv|]. rewrite Hv. clear Hv. unfold record_break. rewrite Hs.
  destruct (make_break_entry request (user_tz session)) as [err|entry];
    [by split|].
  destruct (already_recorded entry session); [by split|].
  rewrite (check_overlapping_breaks_pair (breaks session ++ [entry])).
  cbv zeta.
  destruct (check_overlapping_breaks (breaks session ++ [entry])).1 eqn:Hov.
  - split; [|done]. by intros db' m w b [= _ _ <- _].
  - destruct (create_or_update_session _ _ _ _) as [db1 r1].
    split; [done|]. intros. by eexists.
Qed.

Lemma qmax_zero_Qeq (x y : Q) :
  (x == y)%Q -> (Py.qmax 0 x == Py.qmax 0 y)%Q.
Proof.
  intros Hxy. unfold Py.qmax.
  destruct (Py.Qltb 0 x) eqn:E1; destruct (Py.Qltb 0 y) eqn:E2;
    repeat match goal with
           | E : Py.Qltb _ _ = true |- _ => apply Qltb_true in E
           | E : Py.Qltb _ _ = false |- _ => apply Qltb_false in E
           end; lra.
Qed.

(** X21.  Login, logout, hours.  When an employee without a session today logs in
    and then logs out, with explicit times, [calculate_hours] reports that
    login and logout (converted to UTC), no breaks, the scenario
    "Calculation", and as hours 9 on a full workday and max(0, logged hours)
    otherwise. *)
Theorem login_logout_calculate (db : Store) (emp : string)
    (t_in t_out : Py.datetime) (req_in req_out : Request) :
  get_current_session db emp = None ->
  let tz := (get_timezone_from_ip (get_client_ip req_in)).1 in
  let utc_in := _to_utc_naive t_in tz in
  let utc_out := _to_utc_naive t_out (if String.eqb tz "" then "UTC" else tz) in
  let db1 := (login db (mk_LoginRequest emp (Some t_in)) req_in).1 in
  let db2 := (logout db1 (mk_LogoutRequest emp (Some t_out)) req_out).1 in
  exists resp d,
    calculate_hours db2 emp = inr resp /\
    r_login_time resp = Some utc_in /\
    r_logout_time resp = Some utc_out /\
    r_breaks resp = [] /\
    r_scenario resp = "Calculation" /\
    r_calculation_details resp = Computed d /\
    d_total_logged_hours d = logged_hours utc_out utc_in /\
    (d_final_work_hours d ==
     if d_is_full_workday d then 9
     else Py.qmax 0 (logged_hours utc_out utc_in))%Q.
Proof.
  intros Hnone. cbv zeta.
  destruct (get_timezone_from_ip (get_client_ip req_in)) as [tz loc] eqn:Hz.
  cbn [fst]. set (utc_in := _to_utc_naive t_in tz).
  (* the store after login *)
  assert (H1 : exists m1,
             (login db (mk_LoginRequest emp (Some t_in)) req_in).1
             = <[(emp, current_date) := m1]> db /\
             login_time m1 = Some utc_in /\ timezone m1 = tz /\
             logout_time m1 = None /\ breaks m1 = []).
  { unfold login. cbn [li_emp_id li_login_time]. rewrite Hz.
    rewrite create_or_update_session_merged. cbn [fst snd].
    eexists. split; [reflexivity|].
    destruct (merged_session_login db emp req_in utc_in) as (Hl & Ht & Hrest).
    unfold get_current_session in Hnone. rewrite Hnone in Hrest.
    destruct Hrest as [Hlo Hbr]. rewrite Hz in Ht. cbn [fst] in Ht.
    by repeat split. }
  destruct H1 as (m1 & -> & Hl1 & Htz1 & Hlo1 & Hb1).
  (* the store after logout *)
  set (utc_out := _to_utc_naive t_out (if String.eqb tz "" then "UTC" else tz)).
  assert (Hget1 : get_current_session (<[(emp, current_date) := m1]> db) emp
                  = Some m1).
  { unfold get_current_session, TimeEntryRepository.get_time_entry.
    apply lookup_insert_eq. }
  assert (H2 : exists m2,
             (logout (<[(emp, current_date) := m1]> db)
                (mk_LogoutRequest emp (Some t_out)) req_out).1
             = <[(emp, current_date) := m2]> (<[(emp, current_date) := m1]> db) /\
             login_time m2 = Some utc_in /\ logout_time m2 = Some utc_out /\
             breaks m2 = []).
  { unfold logout. cbn [lo_emp_id lo_logout_time]. rewrite Hget1.
    rewrite create_or_update_session_merged. cbn [fst snd].
    eexists. split; [reflexivity|].
    destruct (merged_session_logout (<[(emp, current_date) := m1]> db) emp
                req_out (_to_utc_naive t_out (user_tz m1))) as (Hlo & Hrest).
    unfold get_current_session in Hget1. rewrite Hget1 in Hrest.
    destruct Hrest as [Hli Hbr].
    rewrite Hli, Hlo, Hbr. unfold utc_out, user_tz. rewrite Htz1.
    by repeat split. }
  destruct H2 as (m2 & -> & Hl2 & Hlo2 & Hb2).
  unfold calculate_hours.
  assert (Hget2 : get_current_session
                    (<[(emp, current_date) := m2]>
                       (<[(emp, current_date) := m1]> db)) emp = Some m2).
  { unfold get_current_session, TimeEntryRepository.get_time_entry.
    apply lookup_insert_eq. }
  rewrite Hget2, (calculate_work_hours_login m2 utc_in Hl2).
  rewrite Hlo2, Hb2. cbn [effective_logout].
  eexists. eexists. split; [reflexivity|].
  cbn [r_login_time r_logout_time r_breaks r_scenario r_calculation_details
       d_total_logged_hours d_final_work_hours d_is_full_workday map].
  split; [done|]. split; [done|]. split; [done|].
  split.
  { destruct (full_day_test (logged_hours utc_out utc_in)).
    - destruct (full_day_value (accumulate [])) as [_ ->]. reflexivity.
    - rewrite partial_day_penalty. reflexivity. }
  split; [reflexivity|]. split; [reflexivity|].
  destruct (full_day_test (logged_hours utc_out utc_in)).
  - destruct (full_day_value (accumulate [])) as [-> _]. reflexivity.
  - rewrite partial_day_final, partial_day_penalty.
    apply qmax_zero_Qeq.
    change (total_break_min (accumulate [])) with 0.
    change (excess (b1_min (accumulate [])) + excess (b2_min (accumulate []))
            + excess (bio_min (accumulate []))) with 0.
    unfold Qdiv. change (/ 60)%Q with (1 # 60)%Q.
    change (inject_Z 0) with 0%Q. lra.
Qed.

End StoreAndEndpoints.

Section StoreAndEndpointsExamples.
Import SessionManager Tracking TimeCalculator Endpoints Examples.

Lemma login_logout_merge_idempotent_witness :
  let r := @create_or_update_session collaborators db800 "Emp800" (Some tt)
             [kw_login_time (at_ 739486 8 55 0);
              kw_logout_time (at_ 739486 18 5 0)] in
  @create_or_update_session collaborators r.1 "Emp800" (Some tt)
    [kw_login_time (at_ 739486 8 55 0); kw_logout_time (at_ 739486 18 5 0)]
  = r.
Proof.
  apply (@login_logout_merge_idempotent collaborators).
  repeat constructor.
Defined.

Lemma record_break_success_witness :
  exists s' start_ end_,
    @record_break collaborators db800 bio_later tt
    = (<[("Emp800", 739486) := s']> db800,
       inr (BreakRecorded "Break recorded successfully" BIO (Some 10)
              start_ end_ "UTC")) /\
    @get_current_session collaborators
      (@record_break collaborators db800 bio_later tt).1 "Emp800" = Some s' /\
    breaks s'
    = breaks emp800
      ++ [timed_break BIO (at_ 739486 11 0 0) (at_ 739486 11 10 0) 10] /\
    total_break_min (accumulate (breaks s'))
    = total_break_min (accumulate (breaks emp800)) + 10.
Proof.
  apply (@record_break_success collaborators db800 bio_later tt emp800
           (timed_break BIO (at_ 739486 11 0 0) (at_ 739486 11 10 0) 10));
    reflexivity.
Defined.

Lemma validate_agrees_with_record_witness :
  @validate_break_timing collaborators db800 bio_overlapping
  = inr {| v_valid := false; v_overlap_detected := true;
           v_overlap_details := Some "bio(1) overlaps bio(3) for 15 min" |}.
Proof.
  pose proof (@validate_agrees_with_record collaborators db800 bio_overlapping
                tt emp800 eq_refl) as (_ & Hwarn & _).
  apply (Hwarn db800 "Break recorded with overlap warning"
           (Some "bio(1) overlaps bio(3) for 15 min") true).
  reflexivity.
Defined.

Lemma login_logout_calculate_witness :
  let db1 := (@login collaborators MoreExamples.clock db800
                (mk_LoginRequest "Emp900" (Some (at_ 739486 9 0 0))) tt).1 in
  let db2 := (@logout collaborators MoreExamples.clock db1
                (mk_LogoutRequest "Emp900" (Some (at_ 739486 18 0 0))) tt).1 in
  exists resp d,
    @calculate_hours collaborators db2 "Emp900" = inr resp /\
    r_login_time resp = Some (at_ 739486 9 0 0) /\
    r_logout_time resp = Some (at_ 739486 18 0 0) /\
    r_breaks resp = [] /\
    r_scenario resp = "Calculation" /\
    r_calculation_details resp = Computed d /\
    d_total_logged_hours d
    = logged_hours (at_ 739486 18 0 0) (at_ 739486 9 0 0) /\
    (d_final_work_hours d ==
     if d_is_full_workday d then 9
     else Py.qmax 0 (logged_hours (at_ 739486 18 0 0) (at_ 739486 9 0 0)))%Q.
Proof.
  apply (@login_logout_calculate collaborators MoreExamples.clock db800
           "Emp900" (at_ 739486 9 0 0) (at_ 739486 18 0 0) tt tt).
  reflexivity.
Defined.

End StoreAndEndpointsExamples.

(** ** The client address *)

Section ClientAddress.
Import GeoTimezoneService.

Lemma before_comma_no_comma (s : string) :
  string_all not_comma (before_comma s) = true.
Proof.
  induction s as [|c s IH]; [done|]. cbn [before_comma].
  destruct (Ascii.N_of_ascii c =? 44)%N eqn:E; [done|].
  cbn [string_all]. unfold not_comma at 1. by rewrite E, IH.
Qed.

Lemma lstrip_all (P : Ascii.ascii -> bool) (s : string) :
  string_all P s = true -> string_all P (lstrip s) = true.
Proof.
  induction s as [|c s IH]; [done|]. cbn [lstrip string_all].
  intros [Hc Hs]%andb_true_iff. destruct (isspace c); [by apply IH|].
  cbn [string_all]. by rewrite Hc, Hs.
Qed.

Lemma rstrip_all (P : Ascii.ascii -> bool) (s : string) :
  string_all P s = true -> string_all P (rstrip s) = true.
Proof.
  induction s as [|c s IH]; [done|]. cbn [rstrip string_all].
  intros [Hc Hs]%andb_true_iff. specialize (IH Hs).
  destruct (rstrip s) as [|d kept].
  - destruct (isspace c); [done|]. cbn [string_all]. by rewrite Hc.
  - cbn [string_all] in IH |- *. by rewrite Hc, IH.
Qed.

Lemma lstrip_first (s : string) (c : Ascii.ascii) :
  first_char (lstrip s) = Some c -> isspace c = false.
Proof.
  induction s as [|d s IH]; [done|]. cbn [lstrip].
  destruct (isspace d) eqn:E; [exact IH|]. cbn. by intros [= <-].
Qed.

Lemma rstrip_first (s : string) (c : Ascii.ascii) :
  first_char (rstrip s) = Some c -> first_char s = Some c.
Proof.
  destruct s as [|d s]; [done|]. cbn [rstrip].
  destruct (rstrip s); [destruct (isspace d)|]; done.
Qed.

Lemma rstrip_last (s : string) (c : Ascii.ascii) :
  last_char (rstrip s) = Some c -> isspace c = false.
Proof.
  revert c. induction s as [|d s IH]; intros c; [done|]. cbn [rstrip].
  destruct (rstrip s) as [|e kept] eqn:Hr.
  - destruct (isspace d) eqn:E; [done|]. cbn. by intros [= <-].
  - cbn [last_char]. specialize (IH c). cbn [last_char] in IH.
    destruct (last_char kept) as [l|]; [exact IH|].
    intros [= <-]. by apply IH.
Qed.

(** X24.  Behind a proxy.  With a non-empty X-Forwarded-For header the address is
    the first comma-separated field of the header with the surrounding
    whitespace removed: it holds no comma and neither starts nor ends with
    whitespace (it may be empty); the peer's own address is not looked at. *)
Theorem get_client_ip_forwarded (request : HttpRequest) (f : string) :
  headers_get request "X-Forwarded-For" = Some f ->
  f <> EmptyString ->
  let ip := get_client_ip request in
  ip = strip (before_comma f) /\
  string_all not_comma ip = true /\
  (forall c, first_char ip = Some c -> isspace c = false) /\
  (forall c, last_char ip = Some c -> isspace c = false).
Proof.
  intros Hf Hne. cbv zeta. unfold get_client_ip. rewrite Hf.
  destruct f as [|c0 f0]; [done|]. cbn [truthy default].
  split; [done|]. unfold strip. split.
  - apply rstrip_all, lstrip_all, before_comma_no_comma.
  - split.
    + intros c Hc. apply rstrip_first in Hc. by apply lstrip_first in Hc.
    + intros c. apply rstrip_last.
Qed.

Lemma get_client_ip_forwarded_witness :
  get_client_ip MoreExamples.proxied = "198.51.100.7".
Proof.
  pose proof (get_client_ip_forwarded MoreExamples.proxied
                " 198.51.100.7 , 10.0.0.1" eq_refl ltac:(discriminate))
    as [Hip _].
  rewrite Hip. reflexivity.
Defined.

(** X25.  Without proxy headers.  When X-Forwarded-For and X-Real-IP are absent or
    empty, the address is the peer's host unless that is missing or a
    localhost or private-prefix address, in which case it is the fixed
    "203.192.1.1"; so the result is never a localhost or private-prefix
    address. *)
Theorem get_client_ip_direct (request : HttpRequest) :
  truthy (headers_get request "X-Forwarded-For") = false ->
  truthy (headers_get request "X-Real-IP") = false ->
  let ip := get_client_ip request in
  is_local ip = false /\
  (ip = "203.192.1.1"
   /\ is_local (default "127.0.0.1" (client_host request)) = true
   \/ client_host request = Some ip).
Proof.
  intros Hf Hr. cbv zeta. unfold get_client_ip. rewrite Hf, Hr.
  destruct (is_local (default "127.0.0.1" (client_host request))) eqn:E.
  - split; [reflexivity|]. by left.
  - split; [exact E|]. right.
    destruct (client_host request) as [h|]; [done|]. by vm_compute in E.
Qed.

Lemma get_client_ip_direct_witness :
  is_local (get_client_ip MoreExamples.direct_private) = false /\
  get_client_ip MoreExamples.direct_private = "203.192.1.1".
Proof.
  pose proof (get_client_ip_direct MoreExamples.direct_private
                eq_refl eq_refl) as [Hl _].
  split; [exact Hl|reflexivity].
Defined.

End ClientAddress.

(** ** The merger outside the replace rule *)

Section MergerEdges.
Context `{Collaborators}.
Import SessionManager.

(** X15.  Two cases in which the merger does not apply the break rule: when the
    employee has no session today, the new session takes the submitted break
    list as it is (two Break1 entries stay two); and on an existing session
    an empty break list is assigned like any other field, which erases the
    recorded breaks. *)
Theorem merger_breaks_outside_rule (db : Store) (emp : string)
    (request : option Request) :
  (TimeEntryRepository.get_time_entry db emp current_date = None ->
   forall bs, exists s',
     create_or_update_session db emp request [kw_breaks bs]
     = (<[(emp, current_date) := s']> db, Some s') /\
     breaks s' = bs /\ login_time s' = None /\ logout_time s' = None) /\
  (forall session,
     TimeEntryRepository.get_time_entry db emp current_date = Some session ->
     exists s',
       create_or_update_session db emp request [kw_breaks []]
       = (<[(emp, current_date) := s']> db, Some s') /\
       breaks s' = [] /\ login_time s' = login_time session /\
       logout_time s' = logout_time session).
Proof.
  split.
  - intros Hnone bs. rewrite create_or_update_session_merged.
    eexists. split; [reflexivity|]. unfold merged_session.
    destruct (resolve request) as [[tz loc] ip]. by rewrite Hnone.
  - intros session Hs. rewrite create_or_update_session_merged.
    eexists. split; [reflexivity|]. unfold merged_session.
    destruct (resolve request) as [[tz loc] ip]. by rewrite Hs.
Qed.

End MergerEdges.

Section MergerEdgesExamples.
Import SessionManager Examples.

Lemma merger_breaks_outside_rule_witness :
  exists s',
    @create_or_update_session collaborators db800 "Emp901" None
      [kw_breaks [duration_only BREAK1 30; duration_only BREAK1 45]]
    = (<[("Emp901", 739486) := s']> db800, Some s') /\
    count_kind BREAK1 (breaks s') = 2%nat.
Proof.
  destruct (@merger_breaks_outside_rule collaborators db800 "Emp901" None)
    as [Hnew _].
  destruct (Hnew eq_refl [duration_only BREAK1 30; duration_only BREAK1 45])
    as (s' & Hc & Hb & _).
  exists s'. split; [exact Hc|]. rewrite Hb. reflexivity.
Defined.

End MergerEdgesExamples.
